(** * The mower entity of [custom_components/husqvarna_automower/vacuum.py]

    A shallow embedding of [HusqvarnaAutomowerEntity]: the state mapper
    ([state]), the error reporter ([error]), the battery clamp
    ([battery_level]), the status formatter ([__get_status]), the attribute
    assembler ([extra_state_attributes]) and the command forwarders
    ([async_start] ... [async_custom_command]).

    Python values are modelled as follows.
    - [int] is [Z]; [str] is [string], each character standing for the code
      point of the same number; [None] is the [None] of an [option].
    - the dictionary [ERRORCODES] of [const.py] is a [gmap Z string], and
      [ERRORCODES.get] is the lookup [!!].
    - the six [STATE_*] constants of the host platform are the constructors
      of [DeviceState].
    - an awaited call that may raise is a computation in the monad [M], which
      threads the calls received by the session and the log records. *)

From Stdlib Require Import ZArith String Ascii List Bool QArith Qround DecimalString.
From stdpp Require Import base gmap strings list.
Import ListNotations.

Local Open Scope string_scope.
Local Open Scope Z_scope.

(** ** The snapshot read through [get_mower_attributes] *)

Record Mower := {
  mower_mode : string;
  mower_activity : string;
  mower_state : string;
  mower_errorCode : Z;
  mower_errorCodeTimestamp : Z
}.

Record Battery := {
  batteryPercent : Z
}.

Record Planner := {
  nextStartTimestamp : Z;
  override_action : string;
  restrictedReason : string
}.

Record MowerAttributes := {
  mower : Mower;
  battery : Battery;
  planner : Planner
}.

(** The vendor vocabularies of the data model. *)
Definition STATES : list string :=
  ["PAUSED"; "WAIT_UPDATING"; "WAIT_POWER_UP"; "RESTRICTED"; "IN_OPERATION";
   "OFF"; "STOPPED"; "ERROR"; "FATAL_ERROR"; "ERROR_AT_POWER_UP";
   "NOT_APPLICABLE"; "UNKNOWN"].

Definition ACTIVITIES : list string :=
  ["PARKED_IN_CS"; "CHARGING"; "MOWING"; "LEAVING"; "GOING_HOME";
   "STOPPED_IN_GARDEN"; "UNKNOWN"; "NOT_APPLICABLE"].

(** ** Python primitives *)

(** [x in [a, b, ...]] on strings. *)
Definition py_in (x : string) (l : list string) : bool :=
  existsb (String.eqb x) l.

(** [max(a, b)] and [min(a, b)]: the first argument is kept on a tie. *)
Definition py_max (a b : Z) : Z := if a <? b then b else a.
Definition py_min (a b : Z) : Z := if b <? a then b else a.

(** ** The state mapper *)

Inductive DeviceState :=
| STATE_CLEANING | STATE_DOCKED | STATE_ERROR
| STATE_IDLE | STATE_PAUSED | STATE_RETURNING.

Definition DeviceState_eqb (a b : DeviceState) : bool :=
  match a, b with
  | STATE_CLEANING, STATE_CLEANING | STATE_DOCKED, STATE_DOCKED
  | STATE_ERROR, STATE_ERROR | STATE_IDLE, STATE_IDLE
  | STATE_PAUSED, STATE_PAUSED | STATE_RETURNING, STATE_RETURNING => true
  | _, _ => false
  end.

(** The property [state]; a run that reaches the end of the body returns
    Python's [None]. *)
Definition state (a : MowerAttributes) : option DeviceState :=
  if py_in (mower_state (mower a)) ["PAUSED"] then Some STATE_PAUSED
  else if py_in (mower_state (mower a)) ["WAIT_UPDATING"; "WAIT_POWER_UP"]
  then Some STATE_IDLE
  else if (mower_state (mower a) =? "RESTRICTED")%string
          || py_in (mower_activity (mower a)) ["PARKED_IN_CS"; "CHARGING"]
  then Some STATE_DOCKED
  else if py_in (mower_activity (mower a)) ["MOWING"; "LEAVING"]
  then Some STATE_CLEANING
  else if (mower_activity (mower a) =? "GOING_HOME")%string
  then Some STATE_RETURNING
  else if py_in (mower_state (mower a))
            ["FATAL_ERROR"; "ERROR"; "ERROR_AT_POWER_UP"; "NOT_APPLICABLE";
             "UNKNOWN"; "STOPPED"; "OFF"]
          || py_in (mower_activity (mower a))
               ["STOPPED_IN_GARDEN"; "UNKNOWN"; "NOT_APPLICABLE"]
  then Some STATE_ERROR
  else None.

(** The decision list of the design, rule by rule, as data: a guard on
    (state, activity) and the device state it yields. *)
Definition state_rules : list ((string -> string -> bool) * DeviceState) :=
  [ (fun st _ => (st =? "PAUSED")%string, STATE_PAUSED);
    (fun st _ => py_in st ["WAIT_UPDATING"; "WAIT_POWER_UP"], STATE_IDLE);
    (fun st act => (st =? "RESTRICTED")%string
                   || py_in act ["PARKED_IN_CS"; "CHARGING"], STATE_DOCKED);
    (fun _ act => py_in act ["MOWING"; "LEAVING"], STATE_CLEANING);
    (fun _ act => (act =? "GOING_HOME")%string, STATE_RETURNING);
    (fun st act =>
       py_in st ["FATAL_ERROR"; "ERROR"; "ERROR_AT_POWER_UP"; "NOT_APPLICABLE";
                 "UNKNOWN"; "STOPPED"; "OFF"]
       || py_in act ["STOPPED_IN_GARDEN"; "UNKNOWN"; "NOT_APPLICABLE"],
     STATE_ERROR) ].

(** First match wins. *)
Fixpoint first_match (rules : list ((string -> string -> bool) * DeviceState))
    (st act : string) : option DeviceState :=
  match rules with
  | [] => None
  | (guard, d) :: rest => if guard st act then Some d else first_match rest st act
  end.

(** ** The battery level *)

Definition battery_level (a : MowerAttributes) : Z :=
  py_max 0 (py_min 100 (batteryPercent (battery a))).

(** Clamping to an inclusive range, as the design words it. *)
Definition clamp (lo hi x : Z) : Z :=
  if x <? lo then lo else if hi <? x then hi else x.

(** ** Decimal and hexadecimal printing *)

(** [str(n)] of an [int]. *)
Definition str_of_int (n : Z) : string :=
  DecimalString.NilZero.string_of_int (Z.to_int n).

(** The [%02d] of [strftime]'s [%H] and [%M]. *)
Definition zero_pad2 (n : Z) : string :=
  if (0 <=? n) && (n <? 10) then "0" ++ str_of_int n else str_of_int n.

Definition hex_digit (n : Z) : ascii :=
  if n <? 10 then ascii_of_nat (Z.to_nat (48 + n))
  else ascii_of_nat (Z.to_nat (87 + n)).

(** ** Dates and times *)

(** A [datetime.datetime], by its wall-clock fields. *)
Record datetime := {
  dt_year : Z;
  dt_month : Z;
  dt_day : Z;
  dt_hour : Z;
  dt_minute : Z;
  dt_second : Z;
  dt_microsecond : Z
}.

(** A [datetime.time], as the schema hands it to the calendar service. *)
Record time := {
  hour : Z;
  minute : Z
}.

Definition is_leap (y : Z) : bool :=
  (y mod 4 =? 0) && (negb (y mod 100 =? 0) || (y mod 400 =? 0)).

Definition days_before_year (y : Z) : Z :=
  let y1 := y - 1 in y1 * 365 + y1 / 4 - y1 / 100 + y1 / 400.

Definition days_before_month (y m : Z) : Z :=
  nth (Z.to_nat m) [0; 0; 31; 59; 90; 120; 151; 181; 212; 243; 273; 304; 334] 0
  + (if (2 <? m) && is_leap y then 1 else 0).

(** [date.toordinal()]: day 1 is 0001-01-01. *)
Definition toordinal (d : datetime) : Z :=
  days_before_year (dt_year d) + days_before_month (dt_year d) (dt_month d)
  + dt_day d.

(** [date.weekday()]: Monday is 0, Sunday is 6. *)
Definition weekday (d : datetime) : Z := (toordinal d + 6) mod 7.

(** [%a] in the C locale. *)
Definition day_abbr (w : Z) : string :=
  nth (Z.to_nat w) ["Mon"; "Tue"; "Wed"; "Thu"; "Fri"; "Sat"; "Sun"] "".

(** [datetime.strftime], for the directives [%a], [%H] and [%M] and [%%];
    every other character of the format is copied. *)
Fixpoint strftime (d : datetime) (fmt : string) : string :=
  match fmt with
  | EmptyString => EmptyString
  | String "%" (String "a" rest) => day_abbr (weekday d) ++ strftime d rest
  | String "%" (String "H" rest) => zero_pad2 (dt_hour d) ++ strftime d rest
  | String "%" (String "M" rest) => zero_pad2 (dt_minute d) ++ strftime d rest
  | String "%" (String "%" rest) => String "%" (strftime d rest)
  | String c rest => String c (strftime d rest)
  end.

(** The calendar date of a day count from 1970-01-01, in the proleptic
    Gregorian calendar. *)
Definition civil_from_days (days : Z) : Z * Z * Z :=
  let z := days + 719468 in
  let era := z / 146097 in
  let doe := z - era * 146097 in
  let yoe := (doe - doe / 1460 + doe / 36524 - doe / 146096) / 365 in
  let doy := doe - (365 * yoe + yoe / 4 - yoe / 100) in
  let mp := (5 * doy + 2) / 153 in
  let d := doy - (153 * mp + 2) / 5 + 1 in
  let m := if mp <? 10 then mp + 3 else mp - 9 in
  let y := yoe + era * 400 + (if m <=? 2 then 1 else 0) in
  (y, m, d).

(** An exact [datetime.utcfromtimestamp]: the UTC fields of a rational
    number of seconds since the epoch, to the microsecond below. The library
    function works on a float; the development takes it as a parameter and
    uses this one where a concrete clock is wanted. *)
Definition utcfromtimestamp_exact (seconds : Q) : datetime :=
  let us := Qfloor (seconds * 1000000)%Q in
  let '(y, m, d) := civil_from_days (us / 86400000000) in
  let r := us mod 86400000000 in
  {| dt_year := y; dt_month := m; dt_day := d;
     dt_hour := r / 3600000000;
     dt_minute := (r / 60000000) mod 60;
     dt_second := (r / 1000000) mod 60;
     dt_microsecond := r mod 1000000 |}.

(** [as_local] of a host whose time zone is UTC. *)
Definition as_local_utc (d : datetime) : datetime := d.

(** ** [json.dumps] *)

(** The values the forwarders serialise. *)
#[local] Set Warnings "-register-all".
Inductive json :=
| JInt (n : Z)
| JBool (b : bool)
| JStr (s : string)
| JList (l : list json)
| JDict (items : list (string * json)).

Definition quote : ascii := ascii_of_nat 34.

(** One character of a string, under the default [ensure_ascii=True]: the
    quote and the backslash are escaped, the printable ASCII characters are
    copied, the others become a short escape or [\u00xx]. *)
Definition json_escape_char (c : ascii) : string :=
  let n := Z.of_nat (nat_of_ascii c) in
  if n =? 34 then String "\" (String quote EmptyString)
  else if n =? 92 then "\\"
  else if (32 <=? n) && (n <=? 126) then String c EmptyString
  else if n =? 10 then "\n"
  else if n =? 13 then "\r"
  else if n =? 9 then "\t"
  else if n =? 8 then "\b"
  else if n =? 12 then "\f"
  else "\u00" ++ String (hex_digit (n / 16)) (String (hex_digit (n mod 16)) EmptyString).

Fixpoint json_escape (s : string) : string :=
  match s with
  | EmptyString => EmptyString
  | String c rest => json_escape_char c ++ json_escape rest
  end.

Definition json_string (s : string) : string :=
  String quote (json_escape s ++ String quote EmptyString).

(** The characters of [s] between two double quotes, to write the payload
    literals of the source. *)
Definition dq (s : string) : string :=
  String quote (s ++ String quote EmptyString).

(** [json.dumps] with the default separators [", "] and [": "]; a [dict]
    keeps the order in which its keys were written. *)
Fixpoint json_dumps (j : json) : string :=
  match j with
  | JInt n => str_of_int n
  | JBool b => if b then "true" else "false"
  | JStr s => json_string s
  | JList l =>
      "[" ++ (fix elements (l : list json) : string :=
                match l with
                | [] => ""
                | x :: rest =>
                    match rest with
                    | [] => json_dumps x
                    | _ :: _ => json_dumps x ++ ", " ++ elements rest
                    end
                end) l ++ "]"
  | JDict items =>
      "{" ++ (fix members (l : list (string * json)) : string :=
                match l with
                | [] => ""
                | (k, v) :: rest =>
                    match rest with
                    | [] => json_string k ++ ": " ++ json_dumps v
                    | _ :: _ => json_string k ++ ": " ++ json_dumps v ++ ", "
                                ++ members rest
                    end
                end) items ++ "}"
  end.

(** ** Effects: the session, the log and exceptions *)

(** One call [session.action(mower_id, payload, command_type)]. *)
Record ActionCall := {
  call_mower_id : string;
  call_payload : string;
  call_command_type : string
}.

(** The exceptions in play: [aiohttp.ClientResponseError], which the session
    raises when the request fails; [ConditionErrorMessage(type, message)],
    which the calendar service raises itself; and any other exception of the
    session, by name. *)
Inductive exn :=
| ClientResponseError
| ConditionErrorMessage (type message : string)
| OtherException (name : string).

Inductive LogLevel := LOG_DEBUG | LOG_ERROR.

(** What a command can touch: the snapshots the session holds, the calls the
    session has received, oldest first, and the records handed to
    [_LOGGER]. *)
Record World := {
  session_data : list MowerAttributes;
  session_calls : list ActionCall;
  log_records : list (LogLevel * string)
}.

(** A coroutine body: it transforms the world and returns a value or raises. *)
Definition M (A : Type) : Type := World -> (A + exn) * World.

Definition ret {A} (x : A) : M A := fun w => (inl x, w).

Definition raise {A} (e : exn) : M A := fun w => (inr e, w).

Definition bind {A B} (m : M A) (k : A -> M B) : M B :=
  fun w => match m w with
           | (inl x, w') => k x w'
           | (inr e, w') => (inr e, w')
           end.

(** [try: body except ClientResponseError: handler]. *)
Definition try_except_ClientResponseError {A} (body handler : M A) : M A :=
  fun w => match body w with
           | (inr ClientResponseError, w') => handler w'
           | r => r
           end.

Notation "'let*' x := m 'in' k" := (bind m (fun x => k))
  (at level 10, x name, m at level 100, k at level 200).
Notation "m ;; k" := (bind m (fun _ => k))
  (at level 100, k at level 200, right associativity).

Definition log (level : LogLevel) (message : string) : M unit :=
  fun w => (inl tt, {| session_data := session_data w;
                       session_calls := session_calls w;
                       log_records := log_records w ++ [(level, message)] |}).

Definition _LOGGER_debug : string -> M unit := log LOG_DEBUG.
Definition _LOGGER_error : string -> M unit := log LOG_ERROR.

(** The world once the session has received a call. *)
Definition received (w : World) (call : ActionCall) : World :=
  {| session_data := session_data w;
     session_calls := session_calls w ++ [call];
     log_records := log_records w |}.

(** The world once a record has been logged. *)
Definition logged (w : World) (level : LogLevel) (message : string) : World :=
  {| session_data := session_data w;
     session_calls := session_calls w;
     log_records := log_records w ++ [(level, message)] |}.

(** A session whose every request fails, and one whose every request is
    accepted. *)
Definition failing_session (_ : list ActionCall) (_ : ActionCall) : option exn :=
  Some ClientResponseError.

Definition accepting_session (_ : list ActionCall) (_ : ActionCall) : option exn :=
  None.

(** A small excerpt of an error table, and a snapshot to run the entity on. *)
Definition sample_ERRORCODES : gmap Z string :=
  <[0 := "Unexpected error"]> (<[1 := "Outside working area"]> ∅).

Definition sample_attributes (st act : string) (code next_start : Z)
    : MowerAttributes :=
  {| mower := {| mower_mode := "MAIN_AREA"; mower_activity := act;
                 mower_state := st; mower_errorCode := code;
                 mower_errorCodeTimestamp := 1623045600000 |};
     battery := {| batteryPercent := 57 |};
     planner := {| nextStartTimestamp := next_start;
                   override_action := "NOT_ACTIVE";
                   restrictedReason := "NOT_APPLICABLE" |} |}.

Definition empty_world : World :=
  {| session_data := []; session_calls := []; log_records := [] |}.

(** ** Helpers on texts *)

(** The first text a key has in a table. *)
Fixpoint assoc_text (k : string) (table : list (string * string)) : option string :=
  match table with
  | [] => None
  | (k', v) :: rest => if (k =? k')%string then Some v else assoc_text k rest
  end.

(** [needle in hay] on strings. *)
Fixpoint contains (needle hay : string) : bool :=
  String.prefix needle hay
  || match hay with
     | EmptyString => false
     | String _ rest => contains needle rest
     end.

(** ** The entity

    The error table of [const.py], the two library clocks and the behaviour
    of the session are parameters of the entity. *)
Section Entity.

(** [ERRORCODES]: error code to message. *)
Variable ERRORCODES : gmap Z string.

(** [datetime.utcfromtimestamp], on the quotient [timestamp / 1000]. *)
Variable utcfromtimestamp : Q -> datetime.

(** [dt_util.as_local]: the datetime in the host's time zone. *)
Variable as_local : datetime -> datetime.

(** What [session.action] does with a call, given the calls it has already
    received: it returns ([None]) or raises. *)
Variable session_response : list ActionCall -> ActionCall -> option exn.

(** *** The error reporter *)

(** [self.state == STATE_ERROR]. *)
Definition state_is (a : MowerAttributes) (d : DeviceState) : bool :=
  match state a with
  | Some d' => DeviceState_eqb d' d
  | None => false
  end.

Definition error (a : MowerAttributes) : option string :=
  if state_is a STATE_ERROR then ERRORCODES !! mower_errorCode (mower a)
  else Some "".

(** *** The status formatter *)

Definition __datetime_object (timestamp : Z) : datetime :=
  let naive := utcfromtimestamp (inject_Z timestamp / 1000)%Q in
  let local := as_local naive in
  local.

Definition next_start_short (a : MowerAttributes) : string :=
  if negb (nextStartTimestamp (planner a) =? 0)
  then strftime (__datetime_object (nextStartTimestamp (planner a)))
                ", next start: %a %H:%M"
  else "".

(** The statements of [__get_status] from [state == "OFF"] to the end. *)
Definition status_from_off (a : MowerAttributes) : option string :=
  let st := mower_state (mower a) in
  if (st =? "OFF")%string then Some "Off"
  else if (st =? "STOPPED")%string then Some "Stopped"
  else if py_in st ["ERROR"; "FATAL_ERROR"; "ERROR_AT_POWER_UP"]
  then ERRORCODES !! mower_errorCode (mower a)
  else Some "Unknown".

(** The statements from [state == "WAIT_UPDATING"] to the end; a
    [RESTRICTED] snapshot whose reason matches no test goes on with the
    statements below its block. *)
Definition status_from_wait_updating (a : MowerAttributes) : option string :=
  let st := mower_state (mower a) in
  let reason := restrictedReason (planner a) in
  if (st =? "WAIT_UPDATING")%string then Some "Updating"
  else if (st =? "WAIT_POWER_UP")%string then Some "Powering up"
  else if (st =? "RESTRICTED")%string then
    if (reason =? "WEEK_SCHEDULE")%string
    then Some ("Schedule" ++ next_start_short a)
    else if (reason =? "PARK_OVERRIDE")%string then Some "Park override"
    else if (reason =? "SENSOR")%string then Some "Weather timer"
    else if (reason =? "DAILY_LIMIT")%string then Some "Daily limit"
    else if (reason =? "NOT_APPLICABLE")%string
    then Some "Parked until further notice"
    else status_from_off a
  else status_from_off a.

(** The whole body; an [IN_OPERATION] snapshot whose activity matches no
    test goes on with the statements below its block. *)
Definition __get_status (a : MowerAttributes) : option string :=
  let st := mower_state (mower a) in
  let act := mower_activity (mower a) in
  if (st =? "UNKNOWN")%string then Some "Unknown"
  else if (st =? "NOT_APPLICABLE")%string then Some "Not applicable"
  else if (st =? "PAUSED")%string then Some "Paused"
  else if (st =? "IN_OPERATION")%string then
    if (act =? "UNKNOWN")%string then Some "Unknown"
    else if (act =? "NOT_APPLICABLE")%string then Some "Not applicable"
    else if (act =? "MOWING")%string then Some "Mowing"
    else if (act =? "GOING_HOME")%string then Some "Going to charging station"
    else if (act =? "CHARGING")%string
    then Some ("Charging" ++ next_start_short a)
    else if (act =? "LEAVING")%string then Some "Leaving charging station"
    else if (act =? "PARKED_IN_CS")%string then Some "Parked"
    else if (act =? "STOPPED_IN_GARDEN")%string then Some "Stopped"
    else status_from_wait_updating a
  else status_from_wait_updating a.

(** *** The attribute assembler *)

Record Attributes := {
  ATTR_STATUS : option string;
  attr_mode : string;
  attr_activity : string;
  attr_state : string;
  errorMessage : option string;
  errorTime : option datetime;
  nextStart : option datetime;
  action : string;
  attr_restrictedReason : string
}.

Definition extra_state_attributes (a : MowerAttributes) : Attributes :=
  let in_error :=
    py_in (mower_state (mower a)) ["ERROR"; "FATAL_ERROR"; "ERROR_AT_POWER_UP"] in
  let error_message :=
    if in_error then ERRORCODES !! mower_errorCode (mower a) else None in
  let error_time :=
    if in_error
    then Some (__datetime_object (mower_errorCodeTimestamp (mower a)))
    else None in
  let next_start :=
    if negb (nextStartTimestamp (planner a) =? 0)
    then Some (__datetime_object (nextStartTimestamp (planner a)))
    else None in
  {| ATTR_STATUS := __get_status a;
     attr_mode := mower_mode (mower a);
     attr_activity := mower_activity (mower a);
     attr_state := mower_state (mower a);
     errorMessage := error_message;
     errorTime := error_time;
     nextStart := next_start;
     action := override_action (planner a);
     attr_restrictedReason := restrictedReason (planner a) |}.

(** *** The branch table of the status formatter, as the design gives it *)

(** State to text, for the states that have one fixed text. *)
Definition STATE_TEXT : list (string * string) :=
  [("UNKNOWN", "Unknown"); ("NOT_APPLICABLE", "Not applicable");
   ("PAUSED", "Paused"); ("WAIT_UPDATING", "Updating");
   ("WAIT_POWER_UP", "Powering up"); ("OFF", "Off"); ("STOPPED", "Stopped")].

(** Activity to text under [IN_OPERATION], given the next-start suffix. *)
Definition ACTIVITY_TEXT (suffix : string) : list (string * string) :=
  [("UNKNOWN", "Unknown"); ("NOT_APPLICABLE", "Not applicable");
   ("MOWING", "Mowing"); ("GOING_HOME", "Going to charging station");
   ("CHARGING", "Charging" ++ suffix);
   ("LEAVING", "Leaving charging station"); ("PARKED_IN_CS", "Parked");
   ("STOPPED_IN_GARDEN", "Stopped")].

(** Restricted reason to text under [RESTRICTED]. *)
Definition REASON_TEXT (suffix : string) : list (string * string) :=
  [("WEEK_SCHEDULE", "Schedule" ++ suffix);
   ("PARK_OVERRIDE", "Park override"); ("SENSOR", "Weather timer");
   ("DAILY_LIMIT", "Daily limit");
   ("NOT_APPLICABLE", "Parked until further notice")].

Definition ERROR_STATES : list string :=
  ["ERROR"; "FATAL_ERROR"; "ERROR_AT_POWER_UP"].

(** The table: one row per state, a sub-table for [IN_OPERATION] and for
    [RESTRICTED], the error message for the error states, and the text
    [Unknown] for whatever no row matches. *)
Definition status_table (a : MowerAttributes) : option string :=
  let st := mower_state (mower a) in
  if (st =? "IN_OPERATION")%string then
    Some (default "Unknown"
            (assoc_text (mower_activity (mower a))
               (ACTIVITY_TEXT (next_start_short a))))
  else if (st =? "RESTRICTED")%string then
    Some (default "Unknown"
            (assoc_text (restrictedReason (planner a))
               (REASON_TEXT (next_start_short a))))
  else if py_in st ERROR_STATES then ERRORCODES !! mower_errorCode (mower a)
  else Some (default "Unknown" (assoc_text st STATE_TEXT)).


(** The texts of the table when the suffix is empty. *)
Definition BARE_TEXTS : list string :=
  "Unknown" :: map snd STATE_TEXT ++ map snd (ACTIVITY_TEXT "")
  ++ map snd (REASON_TEXT "").

(** *** The command forwarders *)

(** [await self.session.action(mower_id, payload, command_type)]: the
    session receives the call, then returns or raises. *)
Definition session_action (mower_id payload command_type : string) : M unit :=
  fun w =>
    let call := {| call_mower_id := mower_id; call_payload := payload;
                   call_command_type := command_type |} in
    let w' := {| session_data := session_data w;
                 session_calls := session_calls w ++ [call];
                 log_records := log_records w |} in
    match session_response (session_calls w) call with
    | None => (inl tt, w')
    | Some e => (inr e, w')
    end.

Definition COULD_NOT_SEND : string :=
  "Command couldn't be sent to the command que".

Definition async_start (mower_id : string) : M unit :=
  let command_type := "actions" in
  let payload := "{" ++ dq "data" ++ ": {" ++ dq "type" ++ ": "
                 ++ dq "ResumeSchedule" ++ "}}" in
  try_except_ClientResponseError
    (session_action mower_id payload command_type)
    (_LOGGER_error COULD_NOT_SEND).

Definition async_pause (mower_id : string) : M unit :=
  let command_type := "actions" in
  let payload := "{" ++ dq "data" ++ ": {" ++ dq "type" ++ ": "
                 ++ dq "Pause" ++ "}}" in
  try_except_ClientResponseError
    (session_action mower_id payload command_type)
    (_LOGGER_error COULD_NOT_SEND).

Definition async_stop (mower_id : string) : M unit :=
  let command_type := "actions" in
  let payload := "{" ++ dq "data" ++ ": {" ++ dq "type" ++ ": "
                 ++ dq "ParkUntilNextSchedule" ++ "}}" in
  try_except_ClientResponseError
    (session_action mower_id payload command_type)
    (_LOGGER_error COULD_NOT_SEND).

Definition async_return_to_base (mower_id : string) : M unit :=
  let command_type := "actions" in
  let payload := "{" ++ dq "data" ++ ": {" ++ dq "type" ++ ": "
                 ++ dq "ParkUntilFurtherNotice" ++ "}}" in
  try_except_ClientResponseError
    (session_action mower_id payload command_type)
    (_LOGGER_error COULD_NOT_SEND).

Definition async_park_and_start (mower_id : string) (command : string)
    (duration : Z) : M unit :=
  let command_type := "actions" in
  let string :=
    JDict [("data", JDict [("type", JStr command);
                           ("attributes", JDict [("duration", JInt duration)])])] in
  let payload := json_dumps string in
  try_except_ClientResponseError
    (session_action mower_id payload command_type)
    (_LOGGER_error COULD_NOT_SEND).

(** The task entry of the calendar request. *)
Definition calendar_task (start_in_minutes duration : Z)
    (monday tuesday wednesday thursday friday saturday sunday : bool) : json :=
  JDict [("start", JInt start_in_minutes);
         ("duration", JInt duration);
         ("monday", JBool monday);
         ("tuesday", JBool tuesday);
         ("wednesday", JBool wednesday);
         ("thursday", JBool thursday);
         ("friday", JBool friday);
         ("saturday", JBool saturday);
         ("sunday", JBool sunday)].

Definition async_custom_calendar_command (mower_id : string)
    (start end_ : time)
    (monday tuesday wednesday thursday friday saturday sunday : bool)
    : M unit :=
  let start_in_minutes := hour start * 60 + minute start in
  _LOGGER_debug ("start in minutes int: " ++ str_of_int start_in_minutes) ;;
  let end_in_minutes := hour end_ * 60 + minute end_ in
  _LOGGER_debug ("end in minutes: " ++ str_of_int end_in_minutes) ;;
  let duration := end_in_minutes - start_in_minutes in
  if duration <=? 0
  then raise (ConditionErrorMessage "<" "StartingTime must be before EndingTime")
  else
    let command_type := "calendar" in
    let string :=
      JDict [("data",
              JDict [("type", JStr "calendar");
                     ("attributes",
                      JDict [("tasks",
                              JList [calendar_task start_in_minutes duration
                                       monday tuesday wednesday thursday
                                       friday saturday sunday])])])] in
    let payload := json_dumps string in
    try_except_ClientResponseError
      (session_action mower_id payload command_type)
      (_LOGGER_error COULD_NOT_SEND).

Definition async_custom_command (mower_id : string)
    (command_type json_string : string) : M unit :=
  try_except_ClientResponseError
    (session_action mower_id json_string command_type)
    (_LOGGER_error COULD_NOT_SEND).

(** The forwarding operations as the host routes them: the four standard
    verbs and the three registered services. *)
Inductive Command :=
| Start
| Pause
| Stop
| ReturnToBase
| ParkAndStart (command : string) (duration : Z)
| Calendar (start end_ : time)
           (monday tuesday wednesday thursday friday saturday sunday : bool)
| CustomCommand (command_type json_string : string).

Definition forward (mower_id : string) (c : Command) : M unit :=
  match c with
  | Start => async_start mower_id
  | Pause => async_pause mower_id
  | Stop => async_stop mower_id
  | ReturnToBase => async_return_to_base mower_id
  | ParkAndStart command duration =>
      async_park_and_start mower_id command duration
  | Calendar start end_ mo tu we th fr sa su =>
      async_custom_calendar_command mower_id start end_ mo tu we th fr sa su
  | CustomCommand command_type json_string =>
      async_custom_command mower_id command_type json_string
  end.

End Entity.

(** ** The rest of the entity: features and platform setup *)

(** The feature flags of the host's vacuum platform are bit masks defined
    outside this file; the entity only combines them. *)
Section Features.

Variables SUPPORT_STATE SUPPORT_BATTERY SUPPORT_MAP SUPPORT_PAUSE
  SUPPORT_RETURN_HOME SUPPORT_SEND_COMMAND SUPPORT_START SUPPORT_STATUS
  SUPPORT_STOP : Z.

(** [SUPPORT_STATE_SERVICES], with [SUPPORT_STATE] written twice as in the
    source. *)
Definition SUPPORT_STATE_SERVICES : Z :=
  Z.lor (Z.lor (Z.lor (Z.lor (Z.lor (Z.lor (Z.lor (Z.lor (Z.lor
    SUPPORT_STATE
    SUPPORT_BATTERY)
    SUPPORT_MAP)
    SUPPORT_PAUSE)
    SUPPORT_RETURN_HOME)
    SUPPORT_SEND_COMMAND)
    SUPPORT_START)
    SUPPORT_STATE)
    SUPPORT_STATUS)
    SUPPORT_STOP.

Definition supported_features : Z := SUPPORT_STATE_SERVICES.

(** The flags the source lists. *)
Definition LISTED_FEATURES : list Z :=
  [SUPPORT_STATE; SUPPORT_BATTERY; SUPPORT_MAP; SUPPORT_PAUSE;
   SUPPORT_RETURN_HOME; SUPPORT_SEND_COMMAND; SUPPORT_START; SUPPORT_STATUS;
   SUPPORT_STOP].

End Features.

(** [enumerate(xs)], counting from [start]. *)
Fixpoint enumerate_from {A} (start : nat) (xs : list A) : list (nat * A) :=
  match xs with
  | [] => []
  | x :: rest => (start, x) :: enumerate_from (S start) rest
  end.

Definition enumerate {A} (xs : list A) : list (nat * A) := enumerate_from 0 xs.

(** The entities [async_setup_entry] adds: one per record of
    [session.data["data"]], each holding its index [idx]. *)
Definition setup_entity_indices {A} (data : list A) : list nat :=
  map (fun '(idx, ent) => idx) (enumerate data).

(** ** Helpers for the further properties *)


(** A snapshot with another activity. *)
Definition with_activity (a : MowerAttributes) (activity : string) : MowerAttributes :=
  {| mower := {| mower_mode := mower_mode (mower a);
                 mower_activity := activity;
                 mower_state := mower_state (mower a);
                 mower_errorCode := mower_errorCode (mower a);
                 mower_errorCodeTimestamp := mower_errorCodeTimestamp (mower a) |};
     battery := battery a;
     planner := planner a |}.

(** A snapshot with another battery percentage. *)
Definition with_battery (a : MowerAttributes) (percent : Z) : MowerAttributes :=
  {| mower := mower a;
     battery := {| batteryPercent := percent |};
     planner := planner a |}.

(** A printable ASCII character, space to tilde. *)
Definition printable (c : ascii) : bool :=
  let n := Z.of_nat (nat_of_ascii c) in (32 <=? n) && (n <=? 126).

Fixpoint all_chars (p : ascii -> bool) (s : string) : bool :=
  match s with
  | EmptyString => true
  | String c rest => p c && all_chars p rest
  end.

(** A [datetime.time] as the host's schema produces it. *)
Definition valid_time (t : time) : Prop :=
  0 <= hour t <= 23 /\ 0 <= minute t <= 59.

(** The strings the state mapper tests the state and the activity against. *)
Definition MAPPED_STATES : list string :=
  ["PAUSED"; "WAIT_UPDATING"; "WAIT_POWER_UP"; "RESTRICTED"; "FATAL_ERROR";
   "ERROR"; "ERROR_AT_POWER_UP"; "NOT_APPLICABLE"; "UNKNOWN"; "STOPPED"; "OFF"].

Definition MAPPED_ACTIVITIES : list string :=
  ["PARKED_IN_CS"; "CHARGING"; "MOWING"; "LEAVING"; "GOING_HOME";
   "STOPPED_IN_GARDEN"; "UNKNOWN"; "NOT_APPLICABLE"].

(** ** Proof automation *)

(** Decide every string comparison in sight, one after the other. *)
Ltac string_cases :=
  repeat match goal with
    | |- context [String.eqb ?x ?y] =>
        destruct (String.eqb_spec x y); try subst x; cbn [orb andb negb] in *;
        try congruence
    end.

(** Find an element in a literal list. *)
Ltac in_list := repeat first [left; reflexivity | right].

(** Close a goal of the state mapper once the snapshot's fields are
    variables: decide the comparisons the code makes, in its order. *)
Ltac decide_tests :=
  simpl; string_cases; simpl in *;
  try reflexivity; try congruence; try (exfalso; intuition congruence).

(** Decide the comparisons of the goal and settle each leaf by logic. *)
Ltac settle_tests :=
  simpl; string_cases; simpl;
  repeat split; intros;
  try congruence; try discriminate;
  try (intuition congruence).

(** * Properties *)

(** ** Membership tests *)

Lemma py_in_In (x : string) (l : list string) : py_in x l = true <-> In x l.
Proof.
  unfold py_in. rewrite existsb_exists. split.
  - intros [y [Hy Heq]]. apply String.eqb_eq in Heq. now subst.
  - intros H. exists x. split; [assumption | apply String.eqb_refl].
Qed.

Lemma py_in_not_In (x : string) (l : list string) : py_in x l = false <-> ~ In x l.
Proof.
  rewrite <- py_in_In. destruct (py_in x l); split; congruence.
Qed.

Lemma py_in_cons (x y : string) (l : list string) :
  py_in x (y :: l) = (x =? y)%string || py_in x l.
Proof. reflexivity. Qed.

(** ** The state mapper *)

Lemma state_first_match (a : MowerAttributes) :
  state a = first_match state_rules (mower_state (mower a)) (mower_activity (mower a)).
Proof.
  unfold state, state_rules, first_match.
  rewrite (py_in_cons _ "PAUSED" []). cbn [py_in existsb].
  rewrite orb_false_r. reflexivity.
Qed.


(** C1. The state mapper is the ordered decision list of the design, first
    match wins: PAUSED gives Paused whatever the activity; otherwise
    WAIT_UPDATING and WAIT_POWER_UP give Idle; otherwise RESTRICTED, or an
    activity PARKED_IN_CS or CHARGING, gives Docked (RESTRICTED with MOWING
    included); otherwise MOWING and LEAVING give Cleaning; otherwise
    GOING_HOME gives Returning; otherwise the seven listed states or the
    three listed activities give Error. *)
Theorem state_decision_list (a : MowerAttributes) :
  let st := mower_state (mower a) in
  let act := mower_activity (mower a) in
  state a = first_match state_rules st act
  /\ (st = "PAUSED" -> state a = Some STATE_PAUSED)
  /\ (st <> "PAUSED" -> In st ["WAIT_UPDATING"; "WAIT_POWER_UP"] ->
      state a = Some STATE_IDLE)
  /\ (~ In st ["PAUSED"; "WAIT_UPDATING"; "WAIT_POWER_UP"] ->
      st = "RESTRICTED" \/ In act ["PARKED_IN_CS"; "CHARGING"] ->
      state a = Some STATE_DOCKED)
  /\ (st = "RESTRICTED" -> act = "MOWING" -> state a = Some STATE_DOCKED)
  /\ (~ In st ["PAUSED"; "WAIT_UPDATING"; "WAIT_POWER_UP"; "RESTRICTED"] ->
      ~ In act ["PARKED_IN_CS"; "CHARGING"] ->
      In act ["MOWING"; "LEAVING"] ->
      state a = Some STATE_CLEANING)
  /\ (~ In st ["PAUSED"; "WAIT_UPDATING"; "WAIT_POWER_UP"; "RESTRICTED"] ->
      ~ In act ["PARKED_IN_CS"; "CHARGING"; "MOWING"; "LEAVING"] ->
      act = "GOING_HOME" ->
      state a = Some STATE_RETURNING)
  /\ (~ In st ["PAUSED"; "WAIT_UPDATING"; "WAIT_POWER_UP"; "RESTRICTED"] ->
      ~ In act ["PARKED_IN_CS"; "CHARGING"; "MOWING"; "LEAVING"; "GOING_HOME"] ->
      In st ["FATAL_ERROR"; "ERROR"; "ERROR_AT_POWER_UP"; "NOT_APPLICABLE";
             "UNKNOWN"; "STOPPED"; "OFF"]
      \/ In act ["STOPPED_IN_GARDEN"; "UNKNOWN"; "NOT_APPLICABLE"] ->
      state a = Some STATE_ERROR).
Proof.
  intros st act. split; [apply state_first_match |].
  subst st act. destruct a as [[mode act st code ts] b p].
  unfold state. cbn [mower mower_state mower_activity py_in existsb].
  repeat split; intros; decide_tests.
Qed.

Lemma state_decision_list_witness :
  state (sample_attributes "RESTRICTED" "MOWING" 0 0) = Some STATE_DOCKED.
Proof.
  pose proof (state_decision_list (sample_attributes "RESTRICTED" "MOWING" 0 0)) as H.
  cbv zeta in H. destruct H as (_ & _ & _ & _ & H & _).
  apply H; reflexivity.
Defined.

(** C5. On the vendor vocabularies the mapping is total: a snapshot whose
    state is one of the twelve states and whose activity is one of the eight
    activities has exactly one derived device state, so the end of the
    decision list is never reached. *)
Theorem state_total_on_vocabulary (a : MowerAttributes) :
  In (mower_state (mower a)) STATES ->
  In (mower_activity (mower a)) ACTIVITIES ->
  exists! d : DeviceState, state a = Some d.
Proof.
  destruct a as [[mode act st code ts] b p].
  cbn [mower mower_state mower_activity]. unfold STATES, ACTIVITIES.
  intros Hst Hact.
  assert (exists d, state {| mower := {| mower_mode := mode; mower_activity := act;
                                         mower_state := st; mower_errorCode := code;
                                         mower_errorCodeTimestamp := ts |};
                             battery := b; planner := p |} = Some d) as [d Hd].
  { simpl in Hst, Hact.
    repeat (destruct Hst as [Hst | Hst]; [subst st |]); try contradiction;
    repeat (destruct Hact as [Hact | Hact]; [subst act |]); try contradiction;
    eexists; reflexivity. }
  exists d. split; [exact Hd | intros d' Hd'; congruence].
Qed.

Lemma state_total_on_vocabulary_witness :
  exists! d : DeviceState,
    state (sample_attributes "IN_OPERATION" "STOPPED_IN_GARDEN" 0 0) = Some d.
Proof.
  apply (state_total_on_vocabulary
           (sample_attributes "IN_OPERATION" "STOPPED_IN_GARDEN" 0 0));
    simpl; tauto.
Defined.

(** Outside the vocabularies the end of the body can be reached: the result
    is then Python's [None]. *)
Lemma state_outside_vocabulary :
  state (sample_attributes "IN_OPERATION" "CALIBRATING" 0 0) = None.
Proof. reflexivity. Qed.

(** ** The battery level *)

(** C9. The battery level is the snapshot's percentage clamped to the
    inclusive range 0..100: -5 gives 0, 150 gives 100 and 57 gives 57. *)
Theorem battery_level_clamped (a : MowerAttributes) :
  let p := batteryPercent (battery a) in
  battery_level a = clamp 0 100 p
  /\ 0 <= battery_level a <= 100
  /\ (0 <= p <= 100 -> battery_level a = p)
  /\ (p = -5 -> battery_level a = 0)
  /\ (p = 150 -> battery_level a = 100)
  /\ (p = 57 -> battery_level a = 57).
Proof.
  unfold battery_level, clamp, py_max, py_min. cbv zeta.
  generalize (batteryPercent (battery a)). intros p.
  destruct (Z.ltb_spec p 100);
  repeat split; intros;
    repeat match goal with
      | |- context [?x <? ?y] => destruct (Z.ltb_spec x y)
      end; lia.
Qed.

Lemma battery_level_clamped_witness :
  battery_level {| mower := mower (sample_attributes "PAUSED" "MOWING" 0 0);
                   battery := {| batteryPercent := 150 |};
                   planner := planner (sample_attributes "PAUSED" "MOWING" 0 0) |}
  = 100.
Proof.
  match goal with
  | |- battery_level ?a = _ =>
      pose proof (battery_level_clamped a) as H
  end.
  cbv zeta in H. destruct H as (_ & _ & _ & _ & H & _).
  apply H. reflexivity.
Defined.

(** ** The readings that need the error table and the clocks *)

Section Readings.

Variable ERRORCODES : gmap Z string.
Variable utcfromtimestamp : Q -> datetime.
Variable as_local : datetime -> datetime.

Local Abbreviation error := (error ERRORCODES).
Local Abbreviation datetime_object := (__datetime_object utcfromtimestamp as_local).
Local Abbreviation next_start_short := (next_start_short utcfromtimestamp as_local).
Local Abbreviation get_status := (__get_status ERRORCODES utcfromtimestamp as_local).
Local Abbreviation status_table := (status_table ERRORCODES utcfromtimestamp as_local).
Local Abbreviation extra_state_attributes :=
  (extra_state_attributes ERRORCODES utcfromtimestamp as_local).

(** *** The error reporter *)

Lemma state_is_spec (a : MowerAttributes) (d : DeviceState) :
  state_is a d = true <-> state a = Some d.
Proof.
  unfold state_is. destruct (state a) as [d' |].
  - destruct d', d; simpl; split; congruence.
  - split; congruence.
Qed.

(** C8. The error reporter returns the table's message for the snapshot's
    error code when the derived state is Error, nothing (and no failure)
    when the derived state is Error and the code is not in the table, and
    the empty string when the derived state is not Error. *)
Theorem error_reporter (a : MowerAttributes) :
  (state a = Some STATE_ERROR ->
   error a = ERRORCODES !! mower_errorCode (mower a))
  /\ (state a = Some STATE_ERROR ->
      forall message, ERRORCODES !! mower_errorCode (mower a) = Some message ->
      error a = Some message)
  /\ (state a = Some STATE_ERROR ->
      ERRORCODES !! mower_errorCode (mower a) = None ->
      error a = None)
  /\ (state a <> Some STATE_ERROR -> error a = Some "").
Proof.
  unfold error.
  destruct (state_is a STATE_ERROR) eqn:E.
  - apply state_is_spec in E. repeat split; intros; congruence.
  - assert (state a <> Some STATE_ERROR) as Hne.
    { intros H. apply state_is_spec in H. congruence. }
    repeat split; intros; congruence.
Qed.

(** *** The status formatter *)

Lemma get_status_table (a : MowerAttributes) : get_status a = status_table a.
Proof.
  unfold __get_status, status_table, status_from_wait_updating,
    status_from_off, ERROR_STATES.
  generalize (next_start_short a). intros suffix.
  destruct a as [[mode act st code ts] b [next ov reason]].
  simpl. string_cases; reflexivity.
Qed.



Lemma next_start_short_zero (a : MowerAttributes) :
  nextStartTimestamp (planner a) = 0 -> next_start_short a = "".
Proof. unfold next_start_short. intros ->. reflexivity. Qed.



(** C10. In one of the three error states, with an error code the table
    does not hold, the status formatter returns nothing instead of the text
    Unknown, and so does the status field of the attribute record. *)
Theorem status_null_on_unknown_error_code (a : MowerAttributes) :
  In (mower_state (mower a)) ["ERROR"; "FATAL_ERROR"; "ERROR_AT_POWER_UP"] ->
  ERRORCODES !! mower_errorCode (mower a) = None ->
  get_status a = None
  /\ get_status a <> Some "Unknown"
  /\ ATTR_STATUS (extra_state_attributes a) = None.
Proof.
  intros Hst Hcode.
  assert (get_status a = None) as Hnone.
  { unfold __get_status, status_from_wait_updating, status_from_off.
    rewrite <- Hcode. simpl in Hst.
    destruct Hst as [Hst | [Hst | [Hst | []]]]; rewrite <- Hst; reflexivity. }
  split; [exact Hnone |]. split; [rewrite Hnone; discriminate |].
  exact Hnone.
Qed.

(** *** The attribute assembler *)

Lemma in_error_states (a : MowerAttributes) :
  py_in (mower_state (mower a)) ["ERROR"; "FATAL_ERROR"; "ERROR_AT_POWER_UP"] = true
  <-> In (mower_state (mower a)) ERROR_STATES.
Proof. apply py_in_In. Qed.

Lemma bare_texts_have_no_suffix :
  forall text, In text BARE_TEXTS -> contains "next start" text = false.
Proof.
  intros text H. unfold BARE_TEXTS in H. simpl in H.
  repeat (destruct H as [H | H]; [subst text; reflexivity |]).
  contradiction.
Qed.

(** C6, as amended. In the attribute record the error time is set exactly in
    the three error states, to the error timestamp divided by 1000, read as
    a UTC time and converted by [as_local] to the host's time zone, and is
    null in every other state. The error message is the table's entry for
    the error code in those states, so it is set exactly when the state is
    an error state and the table holds the code, and is null otherwise. The
    next start is the next-start timestamp converted in the same way exactly
    when that timestamp is not 0, and null when it is 0; and when it is 0
    the status text carries no next-start suffix. *)
Theorem attributes_error_and_next_start (a : MowerAttributes) :
  let attrs := extra_state_attributes a in
  let in_error := In (mower_state (mower a)) ERROR_STATES in
  let code := mower_errorCode (mower a) in
  let next := nextStartTimestamp (planner a) in
  (in_error ->
   errorMessage attrs = ERRORCODES !! code
   /\ errorTime attrs
      = Some (as_local
                (utcfromtimestamp
                   (inject_Z (mower_errorCodeTimestamp (mower a)) / 1000)%Q)))
  /\ (~ in_error -> errorMessage attrs = None /\ errorTime attrs = None)
  /\ (errorTime attrs <> None <-> in_error)
  /\ (errorMessage attrs <> None <-> in_error /\ ERRORCODES !! code <> None)
  /\ (next <> 0 ->
      nextStart attrs
      = Some (as_local (utcfromtimestamp (inject_Z next / 1000)%Q)))
  /\ (next = 0 -> nextStart attrs = None)
  /\ (nextStart attrs <> None <-> next <> 0)
  /\ (next = 0 ->
      next_start_short a = ""
      /\ ((exists text, ATTR_STATUS attrs = Some text /\ In text BARE_TEXTS
                        /\ contains "next start" text = false)
          \/ (in_error /\ ATTR_STATUS attrs = ERRORCODES !! code))).
Proof.
  intros attrs in_error code next.
  assert (in_error ->
          errorMessage attrs = ERRORCODES !! code
          /\ errorTime attrs
             = Some (as_local
                       (utcfromtimestamp
                          (inject_Z (mower_errorCodeTimestamp (mower a)) / 1000)%Q)))
    as Hin.
  { intros H. apply in_error_states in H. subst attrs.
    unfold extra_state_attributes. cbn [errorMessage errorTime].
    rewrite H. split; reflexivity. }
  assert (~ in_error -> errorMessage attrs = None /\ errorTime attrs = None) as Hout.
  { intros H. subst attrs.
    unfold extra_state_attributes. cbn [errorMessage errorTime].
    destruct (py_in (mower_state (mower a)) _) eqn:E; [| split; reflexivity].
    exfalso. apply H. now apply in_error_states. }
  assert (next <> 0 ->
          nextStart attrs
          = Some (as_local (utcfromtimestamp (inject_Z next / 1000)%Q))) as Hnz.
  { intros H. subst attrs next.
    unfold extra_state_attributes. cbn [nextStart].
    destruct (Z.eqb_spec (nextStartTimestamp (planner a)) 0); [contradiction |].
    reflexivity. }
  assert (next = 0 -> nextStart attrs = None) as Hz.
  { intros H. subst attrs next.
    unfold extra_state_attributes. cbn [nextStart].
    rewrite H. reflexivity. }
  assert (in_error \/ ~ in_error) as Hdec.
  { subst in_error.
    destruct (py_in (mower_state (mower a)) ERROR_STATES) eqn:E.
    - left. now apply py_in_In.
    - right. now apply py_in_not_In. }
  split; [exact Hin |]. split; [exact Hout |].
  split.
  { split.
    - intros H. destruct Hdec as [Hd | Hd]; [exact Hd |].
      destruct (Hout Hd) as [_ Ht]. congruence.
    - intros H. destruct (Hin H) as [_ Ht]. rewrite Ht. discriminate. }
  split.
  { split.
    - intros H. destruct Hdec as [Hd | Hd].
      + split; [exact Hd |]. destruct (Hin Hd) as [Hm _]. congruence.
      + destruct (Hout Hd) as [Hm _]. congruence.
    - intros [Hd Hc]. destruct (Hin Hd) as [Hm _]. congruence. }
  split; [exact Hnz |]. split; [exact Hz |].
  split.
  { split.
    - intros H Hn. rewrite (Hz Hn) in H. congruence.
    - intros H. rewrite (Hnz H). discriminate. }
  intros Hn. split; [now apply next_start_short_zero |].
  subst attrs in_error code.
  unfold extra_state_attributes. cbn [ATTR_STATUS].
  rewrite get_status_table. unfold status_table.
  rewrite (next_start_short_zero a Hn).
  destruct (mower_state (mower a) =? "IN_OPERATION")%string.
  { left. eexists. split; [reflexivity |].
    assert (In (default "Unknown"
                  (assoc_text (mower_activity (mower a)) (ACTIVITY_TEXT "")))
               BARE_TEXTS) as Hin_bare.
    { generalize (mower_activity (mower a)). intros act.
      simpl. string_cases; simpl; in_list. }
    split; [exact Hin_bare | now apply bare_texts_have_no_suffix]. }
  destruct (mower_state (mower a) =? "RESTRICTED")%string.
  { left. eexists. split; [reflexivity |].
    assert (In (default "Unknown"
                  (assoc_text (restrictedReason (planner a)) (REASON_TEXT "")))
               BARE_TEXTS) as Hin_bare.
    { generalize (restrictedReason (planner a)). intros reason.
      simpl. string_cases; simpl; in_list. }
    split; [exact Hin_bare | now apply bare_texts_have_no_suffix]. }
  destruct (py_in (mower_state (mower a)) ERROR_STATES) eqn:E.
  { right. split; [now apply py_in_In | reflexivity]. }
  left. eexists. split; [reflexivity |].
  assert (In (default "Unknown" (assoc_text (mower_state (mower a)) STATE_TEXT))
             BARE_TEXTS) as Hin_bare.
  { generalize (mower_state (mower a)). intros st.
    simpl. string_cases; simpl; in_list. }
  split; [exact Hin_bare | now apply bare_texts_have_no_suffix].
Qed.

End Readings.

Lemma error_reporter_witness :
  error sample_ERRORCODES (sample_attributes "ERROR" "STOPPED_IN_GARDEN" 1 0)
  = Some "Outside working area".
Proof.
  destruct (error_reporter sample_ERRORCODES
              (sample_attributes "ERROR" "STOPPED_IN_GARDEN" 1 0))
    as (_ & H & _).
  apply H; reflexivity.
Defined.


Lemma status_null_on_unknown_error_code_witness :
  __get_status sample_ERRORCODES utcfromtimestamp_exact as_local_utc
    (sample_attributes "FATAL_ERROR" "UNKNOWN" 9999 0) = None
  /\ ATTR_STATUS
       (extra_state_attributes sample_ERRORCODES utcfromtimestamp_exact
          as_local_utc (sample_attributes "FATAL_ERROR" "UNKNOWN" 9999 0))
     = None.
Proof.
  destruct (status_null_on_unknown_error_code sample_ERRORCODES
              utcfromtimestamp_exact as_local_utc
              (sample_attributes "FATAL_ERROR" "UNKNOWN" 9999 0))
    as (H1 & _ & H2).
  - simpl. tauto.
  - reflexivity.
  - split; assumption.
Defined.

(** Every table misses some code: a dictionary is finite. *)
Lemma every_table_misses_a_code (ERRORCODES : gmap Z string) :
  exists code, ERRORCODES !! code = None.
Proof.
  exists (fresh (dom ERRORCODES)).
  apply not_elem_of_dom. apply is_fresh.
Qed.

(** C6, as first worded, fails: in state ERROR with an error code the table
    does not hold, the error time is set but the error message is null, so
    the message is not set in every error state. *)
Lemma attributes_error_message_null_in_error_state :
  In (mower_state (mower (sample_attributes "ERROR" "STOPPED_IN_GARDEN" 9999 0)))
     ERROR_STATES
  /\ errorTime
       (extra_state_attributes sample_ERRORCODES utcfromtimestamp_exact
          as_local_utc (sample_attributes "ERROR" "STOPPED_IN_GARDEN" 9999 0))
     <> None
  /\ errorMessage
       (extra_state_attributes sample_ERRORCODES utcfromtimestamp_exact
          as_local_utc (sample_attributes "ERROR" "STOPPED_IN_GARDEN" 9999 0))
     = None
  /\ ~ (errorMessage
          (extra_state_attributes sample_ERRORCODES utcfromtimestamp_exact
             as_local_utc (sample_attributes "ERROR" "STOPPED_IN_GARDEN" 9999 0))
        <> None
        <-> In (mower_state
                  (mower (sample_attributes "ERROR" "STOPPED_IN_GARDEN" 9999 0)))
               ERROR_STATES).
Proof.
  assert (In (mower_state
                (mower (sample_attributes "ERROR" "STOPPED_IN_GARDEN" 9999 0)))
             ERROR_STATES) as Hin by (simpl; tauto).
  split; [exact Hin |]. split; [discriminate |]. split; [reflexivity |].
  intros [_ H]. apply (H Hin). reflexivity.
Qed.

Lemma attributes_error_and_next_start_witness :
  errorMessage
    (extra_state_attributes sample_ERRORCODES utcfromtimestamp_exact
       as_local_utc (sample_attributes "ERROR" "STOPPED_IN_GARDEN" 1 0))
  = Some "Outside working area"
  /\ errorTime
       (extra_state_attributes sample_ERRORCODES utcfromtimestamp_exact
          as_local_utc (sample_attributes "ERROR" "STOPPED_IN_GARDEN" 1 0))
     = Some {| dt_year := 2021; dt_month := 6; dt_day := 7; dt_hour := 6;
               dt_minute := 0; dt_second := 0; dt_microsecond := 0 |}
  /\ nextStart
       (extra_state_attributes sample_ERRORCODES utcfromtimestamp_exact
          as_local_utc (sample_attributes "ERROR" "STOPPED_IN_GARDEN" 1 0))
     = None.
Proof.
  pose proof (attributes_error_and_next_start sample_ERRORCODES
                utcfromtimestamp_exact as_local_utc
                (sample_attributes "ERROR" "STOPPED_IN_GARDEN" 1 0)) as H.
  cbv zeta in H. destruct H as (Herr & _ & _ & _ & _ & Hnext & _).
  destruct Herr as [Hm Ht]; [simpl; tauto |].
  split; [rewrite Hm; reflexivity |].
  split; [rewrite Ht; reflexivity | apply Hnext; reflexivity].
Defined.

(** ** The command forwarders *)

Section Forwarding.

Variable session_response : list ActionCall -> ActionCall -> option exn.

Local Abbreviation session_action := (session_action session_response).
Local Abbreviation forward := (forward session_response).

(** One guarded call: what every forwarder ends with. *)
Lemma guarded_call_run (mower_id payload command_type : string) (w : World) :
  let call := {| call_mower_id := mower_id; call_payload := payload;
                 call_command_type := command_type |} in
  try_except_ClientResponseError
    (session_action mower_id payload command_type)
    (_LOGGER_error COULD_NOT_SEND) w
  = match session_response (session_calls w) call with
    | None => (inl tt, received w call)
    | Some ClientResponseError =>
        (inl tt, logged (received w call) LOG_ERROR COULD_NOT_SEND)
    | Some e => (inr e, received w call)
    end.
Proof.
  intros call. unfold try_except_ClientResponseError, session_action.
  fold call. destruct (session_response (session_calls w) call) as [[| |] |];
    reflexivity.
Qed.

Lemma guarded_call_calls (mower_id payload command_type : string) (w : World) :
  session_calls
    (snd (try_except_ClientResponseError
            (session_action mower_id payload command_type)
            (_LOGGER_error COULD_NOT_SEND) w))
  = (session_calls w ++ [{| call_mower_id := mower_id; call_payload := payload;
                            call_command_type := command_type |}])%list.
Proof.
  rewrite guarded_call_run. cbv zeta.
  destruct (session_response _ _) as [[| |] |]; reflexivity.
Qed.

Lemma calendar_logs_then_checks (mower_id : string) (start end_ : time)
    (mo tu we th fr sa su : bool) (w : World) :
  let s := hour start * 60 + minute start in
  let e := hour end_ * 60 + minute end_ in
  let w' := logged (logged w LOG_DEBUG ("start in minutes int: " ++ str_of_int s))
              LOG_DEBUG ("end in minutes: " ++ str_of_int e) in
  async_custom_calendar_command session_response mower_id start end_
    mo tu we th fr sa su w
  = if e - s <=? 0
    then (inr (ConditionErrorMessage "<" "StartingTime must be before EndingTime"),
          w')
    else try_except_ClientResponseError
           (session_action mower_id
              (json_dumps
                 (JDict [("data",
                          JDict [("type", JStr "calendar");
                                 ("attributes",
                                  JDict [("tasks",
                                          JList [calendar_task s (e - s)
                                                   mo tu we th fr sa su])])])]))
              "calendar")
           (_LOGGER_error COULD_NOT_SEND) w'.
Proof.
  intros s e w'. unfold async_custom_calendar_command, bind, _LOGGER_debug, log.
  fold s e. cbv beta iota. fold (logged w LOG_DEBUG ("start in minutes int: " ++ str_of_int s)).
  destruct (e - s <=? 0); reflexivity.
Qed.

(** C7. The custom command hands the session exactly one call, with the
    caller's payload string and command type as they were given. *)
Theorem custom_command_forwards_unchanged
    (mower_id command_type json_string : string) (w : World) :
  session_calls
    (snd (async_custom_command session_response mower_id command_type
            json_string w))
  = (session_calls w
     ++ [{| call_mower_id := mower_id; call_payload := json_string;
            call_command_type := command_type |}])%list.
Proof. unfold async_custom_command. apply guarded_call_calls. Qed.

(** C3. The calendar command turns start and end into minutes since
    midnight and takes their difference as the duration. A duration of 0 or
    less raises the range error with no call forwarded; a positive duration
    forwards exactly one request of type calendar whose only task carries
    the start, the duration and the seven weekday flags. From 08:00 to 08:30
    the task has start 480 and duration 30. *)
Theorem calendar_command_range_and_task (mower_id : string) (start end_ : time)
    (monday tuesday wednesday thursday friday saturday sunday : bool)
    (w : World) :
  let start_in_minutes := hour start * 60 + minute start in
  let end_in_minutes := hour end_ * 60 + minute end_ in
  let duration := end_in_minutes - start_in_minutes in
  let run := async_custom_calendar_command session_response mower_id start end_
               monday tuesday wednesday thursday friday saturday sunday w in
  let request (s d : Z) :=
    {| call_mower_id := mower_id;
       call_payload :=
         json_dumps
           (JDict [("data",
                    JDict [("type", JStr "calendar");
                           ("attributes",
                            JDict [("tasks",
                                    JList [JDict [("start", JInt s);
                                                  ("duration", JInt d);
                                                  ("monday", JBool monday);
                                                  ("tuesday", JBool tuesday);
                                                  ("wednesday", JBool wednesday);
                                                  ("thursday", JBool thursday);
                                                  ("friday", JBool friday);
                                                  ("saturday", JBool saturday);
                                                  ("sunday", JBool sunday)] ])])])]);
       call_command_type := "calendar" |} in
  (duration <= 0 ->
   fst run = inr (ConditionErrorMessage "<" "StartingTime must be before EndingTime")
   /\ session_calls (snd run) = session_calls w)
  /\ (0 < duration ->
      session_calls (snd run)
      = (session_calls w ++ [request start_in_minutes duration])%list)
  /\ (hour start = 8 -> minute start = 0 -> hour end_ = 8 -> minute end_ = 30 ->
      session_calls (snd run) = (session_calls w ++ [request 480 30])%list).
Proof.
  intros s e d run request.
  assert (0 < d ->
          session_calls (snd run) = (session_calls w ++ [request s d])%list) as Hpos.
  { intros Hd. subst run. rewrite calendar_logs_then_checks. fold s e d.
    destruct (Z.leb_spec d 0); [lia |].
    rewrite guarded_call_calls. reflexivity. }
  split; [| split].
  - intros Hd. subst run. rewrite calendar_logs_then_checks. fold s e d.
    destruct (Z.leb_spec d 0); [| lia]. split; reflexivity.
  - exact Hpos.
  - intros Hh Hm Hh' Hm'.
    assert (s = 480 /\ d = 30) as [Hs Hd] by (subst s e d; lia).
    rewrite <- Hs, <- Hd. apply Hpos. lia.
Qed.

(** A forwarder hands the session at most one call. *)
Lemma forward_at_most_one_call (mower_id : string) (c : Command) (w : World) :
  session_calls (snd (forward mower_id c w)) = session_calls w
  \/ exists call,
       session_calls (snd (forward mower_id c w))
       = (session_calls w ++ [call])%list.
Proof.
  destruct c; cbn [forward];
    try (right; eexists; apply guarded_call_calls).
  rewrite calendar_logs_then_checks. cbv zeta.
  destruct (_ <=? 0); [left; reflexivity |].
  right. eexists. rewrite guarded_call_calls. reflexivity.
Qed.

Lemma guarded_call_swallows (mower_id payload command_type : string)
    (w : World) (call : ActionCall) :
  session_calls
    (snd (try_except_ClientResponseError
            (session_action mower_id payload command_type)
            (_LOGGER_error COULD_NOT_SEND) w))
  = (session_calls w ++ [call])%list ->
  session_response (session_calls w) call = Some ClientResponseError ->
  try_except_ClientResponseError
    (session_action mower_id payload command_type)
    (_LOGGER_error COULD_NOT_SEND) w
  = (inl tt, logged (received w call) LOG_ERROR COULD_NOT_SEND).
Proof.
  intros Hcalls Hfail. rewrite guarded_call_calls in Hcalls.
  apply app_inv_head in Hcalls. injection Hcalls as Hcall.
  rewrite guarded_call_run. cbv zeta. rewrite Hcall, Hfail. reflexivity.
Qed.

(** C4. Whatever the forwarding operation, when the call it hands to the
    session fails with the request error, the operation returns normally:
    no exception reaches the caller, the snapshots are untouched, and the
    failure is one error record at the end of the log (after the debug
    records of the calendar command, if any). *)
Theorem forward_swallows_request_error (mower_id : string) (c : Command)
    (w : World) (call : ActionCall) :
  session_calls (snd (forward mower_id c w)) = (session_calls w ++ [call])%list ->
  session_response (session_calls w) call = Some ClientResponseError ->
  fst (forward mower_id c w) = inl tt
  /\ session_data (snd (forward mower_id c w)) = session_data w
  /\ exists debug,
       log_records (snd (forward mower_id c w))
       = (log_records w ++ debug ++ [(LOG_ERROR, COULD_NOT_SEND)])%list
       /\ Forall (fun record => fst record = LOG_DEBUG) debug.
Proof.
  destruct c; cbn [forward]; intros Hcalls Hfail;
    try (unfold async_start, async_pause, async_stop, async_return_to_base,
           async_park_and_start, async_custom_command in *;
         cbv zeta in *;
         rewrite (guarded_call_swallows _ _ _ w call Hcalls Hfail);
         split; [reflexivity |]; split; [reflexivity |];
         exists []; split; [reflexivity | constructor]).
  revert Hcalls. rewrite calendar_logs_then_checks. cbv zeta.
  destruct (_ <=? 0).
  - cbn [snd logged session_calls]. intros Hcalls. exfalso.
    apply (f_equal (@length ActionCall)) in Hcalls.
    rewrite length_app in Hcalls. simpl in Hcalls. lia.
  - intros Hcalls.
    rewrite (guarded_call_swallows _ _ _ _ call Hcalls Hfail).
    split; [reflexivity |]. split; [reflexivity |].
    eexists [_; _]. split.
    + cbn [snd logged received log_records]. rewrite <- !app_assoc. reflexivity.
    + repeat constructor.
Qed.

(** Any other exception of the session does reach the caller. *)
Lemma forward_propagates_other_exceptions (mower_id command_type payload name : string)
    (w : World) :
  session_response (session_calls w)
    {| call_mower_id := mower_id; call_payload := payload;
       call_command_type := command_type |} = Some (OtherException name) ->
  fst (forward mower_id (CustomCommand command_type payload) w)
  = inr (OtherException name).
Proof.
  intros H. cbn [forward]. unfold async_custom_command.
  rewrite guarded_call_run. cbv zeta. rewrite H. reflexivity.
Qed.

End Forwarding.

Lemma calendar_command_range_and_task_witness :
  fst (async_custom_calendar_command accepting_session "mower-1"
         {| hour := 8; minute := 0 |} {| hour := 7; minute := 0 |}
         true true true true true false false empty_world)
  = inr (ConditionErrorMessage "<" "StartingTime must be before EndingTime")
  /\ session_calls
       (snd (async_custom_calendar_command accepting_session "mower-1"
               {| hour := 8; minute := 0 |} {| hour := 7; minute := 0 |}
               true true true true true false false empty_world))
     = [].
Proof.
  pose proof (calendar_command_range_and_task accepting_session "mower-1"
                {| hour := 8; minute := 0 |} {| hour := 7; minute := 0 |}
                true true true true true false false empty_world) as H.
  cbv zeta in H. destruct H as (H & _).
  apply H. simpl. lia.
Defined.

(** The request of the service call from 08:00 to 08:30 on working days, as
    the session receives it. *)
Example calendar_request_0800_0830 :
  session_calls
    (snd (async_custom_calendar_command accepting_session "mower-1"
            {| hour := 8; minute := 0 |} {| hour := 8; minute := 30 |}
            true true true true true false false empty_world))
  = [{| call_mower_id := "mower-1";
        call_payload :=
          "{" ++ dq "data" ++ ": {" ++ dq "type" ++ ": " ++ dq "calendar" ++ ", "
          ++ dq "attributes" ++ ": {" ++ dq "tasks" ++ ": [{"
          ++ dq "start" ++ ": 480, " ++ dq "duration" ++ ": 30, "
          ++ dq "monday" ++ ": true, " ++ dq "tuesday" ++ ": true, "
          ++ dq "wednesday" ++ ": true, " ++ dq "thursday" ++ ": true, "
          ++ dq "friday" ++ ": true, " ++ dq "saturday" ++ ": false, "
          ++ dq "sunday" ++ ": false}]}}}";
        call_command_type := "calendar" |}].
Proof. reflexivity. Qed.

(** The literal payload of [async_start] is the serialisation of the
    dictionary it spells. *)
Example start_payload_is_json :
  session_calls (snd (async_start accepting_session "mower-1" empty_world))
  = [{| call_mower_id := "mower-1";
        call_payload := json_dumps (JDict [("data", JDict [("type", JStr "ResumeSchedule")])]);
        call_command_type := "actions" |}].
Proof. reflexivity. Qed.

Lemma forward_swallows_request_error_witness :
  fst (forward failing_session "mower-1" Start empty_world) = inl tt
  /\ log_records (snd (forward failing_session "mower-1" Start empty_world))
     = [(LOG_ERROR, COULD_NOT_SEND)].
Proof.
  destruct (forward_swallows_request_error failing_session "mower-1" Start
              empty_world
              {| call_mower_id := "mower-1";
                 call_payload := "{" ++ dq "data" ++ ": {" ++ dq "type" ++ ": "
                                 ++ dq "ResumeSchedule" ++ "}}";
                 call_command_type := "actions" |})
    as (Hret & _ & _).
  - reflexivity.
  - reflexivity.
  - split; [exact Hret | reflexivity].
Defined.

(** * Further properties of the entity *)

(** ** The state mapper, read backwards *)

(** X1. The state mapper returns nothing exactly when the state is none of
    the eleven strings it tests and the activity is none of the eight. *)
Theorem state_none_iff (a : MowerAttributes) :
  state a = None
  <-> ~ In (mower_state (mower a)) MAPPED_STATES
      /\ ~ In (mower_activity (mower a)) MAPPED_ACTIVITIES.
Proof.
  destruct a as [[mode act st code ts] b p].
  unfold state, MAPPED_STATES, MAPPED_ACTIVITIES.
  cbn [mower mower_state mower_activity py_in existsb].
  settle_tests.
Qed.

(** X2. Paused and Idle are decided by the state alone, and Docked needs a
    state other than those three together with RESTRICTED or a docked
    activity: each of the three results is reported in these cases only. *)
Theorem state_paused_idle_docked_iff (a : MowerAttributes) :
  let st := mower_state (mower a) in
  let act := mower_activity (mower a) in
  (state a = Some STATE_PAUSED <-> st = "PAUSED")
  /\ (state a = Some STATE_IDLE <-> In st ["WAIT_UPDATING"; "WAIT_POWER_UP"])
  /\ (state a = Some STATE_DOCKED
      <-> ~ In st ["PAUSED"; "WAIT_UPDATING"; "WAIT_POWER_UP"]
          /\ (st = "RESTRICTED" \/ In act ["PARKED_IN_CS"; "CHARGING"])).
Proof.
  destruct a as [[mode act st code ts] b p].
  unfold state. cbn [mower mower_state mower_activity py_in existsb].
  cbv zeta. settle_tests.
Qed.

(** X3. Cleaning, Returning and Error are reported only for a state that is
    not PAUSED, WAIT_UPDATING, WAIT_POWER_UP or RESTRICTED: Cleaning exactly
    for the activities MOWING and LEAVING, Returning exactly for GOING_HOME,
    and Error exactly when the activity is none of the five moving or docked
    ones and the state or the activity is one of the listed error values. *)
Theorem state_cleaning_returning_error_iff (a : MowerAttributes) :
  let st := mower_state (mower a) in
  let act := mower_activity (mower a) in
  let held := In st ["PAUSED"; "WAIT_UPDATING"; "WAIT_POWER_UP"; "RESTRICTED"] in
  (state a = Some STATE_CLEANING <-> ~ held /\ In act ["MOWING"; "LEAVING"])
  /\ (state a = Some STATE_RETURNING <-> ~ held /\ act = "GOING_HOME")
  /\ (state a = Some STATE_ERROR
      <-> ~ held
          /\ ~ In act ["PARKED_IN_CS"; "CHARGING"; "MOWING"; "LEAVING"; "GOING_HOME"]
          /\ (In st ["FATAL_ERROR"; "ERROR"; "ERROR_AT_POWER_UP"; "NOT_APPLICABLE";
                     "UNKNOWN"; "STOPPED"; "OFF"]
              \/ In act ["STOPPED_IN_GARDEN"; "UNKNOWN"; "NOT_APPLICABLE"])).
Proof.
  destruct a as [[mode act st code ts] b p].
  unfold state. cbn [mower mower_state mower_activity py_in existsb].
  cbv zeta. settle_tests.
Qed.

(** ** The battery level *)

Lemma py_max_is_max (x y : Z) : py_max x y = Z.max x y.
Proof. unfold py_max. destruct (Z.ltb_spec x y); lia. Qed.

Lemma py_min_is_min (x y : Z) : py_min x y = Z.min x y.
Proof. unfold py_min. destruct (Z.ltb_spec y x); lia. Qed.

(** X4. The battery level never decreases when the percentage grows, and
    clamping a clamped level changes nothing. *)
Theorem battery_level_monotone_idempotent (a : MowerAttributes) (p q : Z) :
  p <= q ->
  battery_level (with_battery a p) <= battery_level (with_battery a q)
  /\ battery_level (with_battery a (battery_level (with_battery a p)))
     = battery_level (with_battery a p).
Proof.
  intros Hpq. unfold battery_level, with_battery.
  cbn [battery batteryPercent].
  rewrite !py_max_is_max, !py_min_is_min. lia.
Qed.

Lemma battery_level_monotone_idempotent_witness :
  battery_level (with_battery (sample_attributes "PAUSED" "MOWING" 0 0) (-5))
  <= battery_level (with_battery (sample_attributes "PAUSED" "MOWING" 0 0) 57).
Proof.
  apply (battery_level_monotone_idempotent
           (sample_attributes "PAUSED" "MOWING" 0 0) (-5) 57).
  lia.
Defined.

(** ** The readings together *)

Section ReadingsTogether.

Variable ERRORCODES : gmap Z string.
Variable utcfromtimestamp : Q -> datetime.
Variable as_local : datetime -> datetime.

Local Abbreviation error := (error ERRORCODES).
Local Abbreviation next_start_short := (next_start_short utcfromtimestamp as_local).
Local Abbreviation get_status := (__get_status ERRORCODES utcfromtimestamp as_local).
Local Abbreviation status_table := (status_table ERRORCODES utcfromtimestamp as_local).
Local Abbreviation extra_state_attributes :=
  (extra_state_attributes ERRORCODES utcfromtimestamp as_local).

Lemma status_in_error_state (a : MowerAttributes) :
  In (mower_state (mower a)) ERROR_STATES ->
  get_status a = ERRORCODES !! mower_errorCode (mower a).
Proof.
  intros Hst. unfold __get_status, status_from_wait_updating, status_from_off.
  simpl in Hst.
  destruct Hst as [Hst | [Hst | [Hst | []]]]; rewrite <- Hst; reflexivity.
Qed.

Lemma error_when_error (a : MowerAttributes) :
  state a = Some STATE_ERROR ->
  error a = ERRORCODES !! mower_errorCode (mower a).
Proof. intros H. unfold error, state_is. rewrite H. reflexivity. Qed.

Lemma error_when_not_error (a : MowerAttributes) :
  state a <> Some STATE_ERROR -> error a = Some "".
Proof.
  intros H. unfold error, state_is.
  destruct (state a) as [[] |]; simpl; congruence.
Qed.

Lemma error_message_in_error_state (a : MowerAttributes) :
  In (mower_state (mower a)) ERROR_STATES ->
  errorMessage (extra_state_attributes a)
  = ERRORCODES !! mower_errorCode (mower a).
Proof.
  intros H. apply py_in_In in H.
  unfold extra_state_attributes. cbn [errorMessage].
  unfold ERROR_STATES in H. rewrite H. reflexivity.
Qed.

Lemma state_error_in_error_state (a : MowerAttributes) :
  In (mower_state (mower a)) ERROR_STATES ->
  ~ In (mower_activity (mower a))
       ["PARKED_IN_CS"; "CHARGING"; "MOWING"; "LEAVING"; "GOING_HOME"] ->
  state a = Some STATE_ERROR.
Proof.
  destruct a as [[mode act st code ts] b p].
  unfold state, ERROR_STATES.
  cbn [mower mower_state mower_activity py_in existsb].
  intros Hst Hact. decide_tests.
Qed.

(** X5. In an error state whose activity is still a docked or moving one
    (PARKED_IN_CS, CHARGING, MOWING, LEAVING, GOING_HOME) the derived state
    is not Error, so the error reporter returns the empty string, while the
    attribute record carries the table's message both as error message and
    as status. *)
Theorem error_empty_while_attributes_report (a : MowerAttributes) :
  In (mower_state (mower a)) ERROR_STATES ->
  In (mower_activity (mower a))
     ["PARKED_IN_CS"; "CHARGING"; "MOWING"; "LEAVING"; "GOING_HOME"] ->
  state a <> Some STATE_ERROR
  /\ error a = Some ""
  /\ errorMessage (extra_state_attributes a)
     = ERRORCODES !! mower_errorCode (mower a)
  /\ ATTR_STATUS (extra_state_attributes a)
     = ERRORCODES !! mower_errorCode (mower a).
Proof.
  intros Hst Hact.
  assert (state a <> Some STATE_ERROR) as Hne.
  { destruct a as [[mode act st code ts] b p].
    cbn [mower mower_state mower_activity] in *. simpl in Hst, Hact.
    destruct Hst as [Hst | [Hst | [Hst | []]]]; subst st;
      repeat (destruct Hact as [Hact | Hact]; [subst act; discriminate |]);
      contradiction. }
  split; [exact Hne |]. split.
  { apply error_when_not_error. exact Hne. }
  split.
  - apply error_message_in_error_state. exact Hst.
  - apply status_in_error_state. exact Hst.
Qed.

(** X6. In an error state with any other activity the three readings agree:
    the derived state is Error, and the error reporter, the error message
    and the status all are the table's entry for the error code. *)
Theorem error_readings_agree (a : MowerAttributes) :
  In (mower_state (mower a)) ERROR_STATES ->
  ~ In (mower_activity (mower a))
       ["PARKED_IN_CS"; "CHARGING"; "MOWING"; "LEAVING"; "GOING_HOME"] ->
  state a = Some STATE_ERROR
  /\ error a = ERRORCODES !! mower_errorCode (mower a)
  /\ errorMessage (extra_state_attributes a) = error a
  /\ ATTR_STATUS (extra_state_attributes a) = error a.
Proof.
  intros Hst Hact.
  assert (state a = Some STATE_ERROR) as Herr.
  { now apply state_error_in_error_state. }
  assert (error a = ERRORCODES !! mower_errorCode (mower a)) as He.
  { apply error_when_error. exact Herr. }
  split; [exact Herr |]. split; [exact He |]. rewrite He. split.
  - apply error_message_in_error_state. exact Hst.
  - apply status_in_error_state. exact Hst.
Qed.

(** X7. The status is nothing only in one case: an error state whose
    error code the table does not hold. Every other snapshot has a text. *)
Theorem status_none_iff (a : MowerAttributes) :
  get_status a = None
  <-> In (mower_state (mower a)) ERROR_STATES
      /\ ERRORCODES !! mower_errorCode (mower a) = None.
Proof.
  rewrite get_status_table. unfold status_table, ERROR_STATES.
  generalize (next_start_short a). intros suffix.
  destruct a as [[mode act st code ts] b [next ov reason]].
  cbn [mower mower_state mower_activity mower_errorCode planner restrictedReason
       py_in existsb].
  string_cases; simpl; split; intros H;
    try discriminate; try (split; [in_list | assumption]);
    try (destruct H as [H Hc]; try exact Hc; simpl in H; intuition congruence).
Qed.


(** X9. The activity reaches the status only under IN_OPERATION: in every
    other state the status is the same whatever the activity. *)
Theorem status_ignores_activity (a : MowerAttributes) (activity : string) :
  mower_state (mower a) <> "IN_OPERATION" ->
  get_status (with_activity a activity) = get_status a.
Proof.
  intros Hst. unfold __get_status.
  cbn [with_activity mower mower_state mower_activity].
  destruct (String.eqb_spec (mower_state (mower a)) "IN_OPERATION");
    [contradiction |].
  reflexivity.
Qed.

(** X10. Under RESTRICTED the status follows the restricted reason:
    WEEK_SCHEDULE gives Schedule with the next-start suffix, PARK_OVERRIDE
    gives Park override, SENSOR gives Weather timer, DAILY_LIMIT gives Daily
    limit, NOT_APPLICABLE gives Parked until further notice, and any other
    reason falls to the end of the body and gives Unknown. *)
Theorem status_restricted_rows (a : MowerAttributes) :
  mower_state (mower a) = "RESTRICTED" ->
  let reason := restrictedReason (planner a) in
  (reason = "WEEK_SCHEDULE" ->
   get_status a = Some ("Schedule" ++ next_start_short a)%string)
  /\ (reason = "PARK_OVERRIDE" -> get_status a = Some "Park override")
  /\ (reason = "SENSOR" -> get_status a = Some "Weather timer")
  /\ (reason = "DAILY_LIMIT" -> get_status a = Some "Daily limit")
  /\ (reason = "NOT_APPLICABLE" ->
      get_status a = Some "Parked until further notice")
  /\ (~ In reason ["WEEK_SCHEDULE"; "PARK_OVERRIDE"; "SENSOR"; "DAILY_LIMIT";
                   "NOT_APPLICABLE"] ->
      get_status a = Some "Unknown").
Proof.
  intros Hst reason. subst reason.
  unfold __get_status, status_from_wait_updating, status_from_off.
  rewrite Hst. cbn [String.eqb Ascii.eqb Bool.eqb py_in existsb orb].
  split; [intros ->; reflexivity |].
  split; [intros ->; reflexivity |].
  split; [intros ->; reflexivity |].
  split; [intros ->; reflexivity |].
  split; [intros ->; reflexivity |].
  intros Hreason. generalize (next_start_short a). intros suffix.
  revert Hreason. generalize (restrictedReason (planner a)). intros reason Hreason.
  string_cases; try reflexivity; exfalso; apply Hreason; in_list.
Qed.

End ReadingsTogether.

Lemma error_empty_while_attributes_report_witness :
  error sample_ERRORCODES (sample_attributes "ERROR" "MOWING" 1 0) = Some ""
  /\ errorMessage
       (extra_state_attributes sample_ERRORCODES utcfromtimestamp_exact
          as_local_utc (sample_attributes "ERROR" "MOWING" 1 0))
     = Some "Outside working area".
Proof.
  destruct (error_empty_while_attributes_report sample_ERRORCODES
              utcfromtimestamp_exact as_local_utc
              (sample_attributes "ERROR" "MOWING" 1 0))
    as (_ & He & Hm & _).
  - simpl. tauto.
  - simpl. tauto.
  - split; [exact He | rewrite Hm; reflexivity].
Defined.

Lemma error_readings_agree_witness :
  error sample_ERRORCODES (sample_attributes "FATAL_ERROR" "STOPPED_IN_GARDEN" 0 0)
  = Some "Unexpected error".
Proof.
  destruct (error_readings_agree sample_ERRORCODES utcfromtimestamp_exact
              as_local_utc
              (sample_attributes "FATAL_ERROR" "STOPPED_IN_GARDEN" 0 0))
    as (_ & He & _).
  - simpl. tauto.
  - simpl. intuition discriminate.
  - rewrite He. reflexivity.
Defined.


Lemma status_ignores_activity_witness :
  __get_status sample_ERRORCODES utcfromtimestamp_exact as_local_utc
    (with_activity (sample_attributes "PAUSED" "MOWING" 0 0) "CHARGING")
  = __get_status sample_ERRORCODES utcfromtimestamp_exact as_local_utc
      (sample_attributes "PAUSED" "MOWING" 0 0).
Proof.
  apply (status_ignores_activity sample_ERRORCODES utcfromtimestamp_exact
           as_local_utc (sample_attributes "PAUSED" "MOWING" 0 0) "CHARGING").
  simpl. discriminate.
Defined.

Lemma status_restricted_rows_witness :
  __get_status sample_ERRORCODES utcfromtimestamp_exact as_local_utc
    (sample_attributes "RESTRICTED" "PARKED_IN_CS" 0 0)
  = Some "Parked until further notice".
Proof.
  pose proof (status_restricted_rows sample_ERRORCODES utcfromtimestamp_exact
                as_local_utc (sample_attributes "RESTRICTED" "PARKED_IN_CS" 0 0)
                eq_refl) as H.
  cbv zeta in H. destruct H as (_ & _ & _ & _ & H & _).
  apply H. reflexivity.
Defined.

(** ** The command forwarders, beyond the swallowed request error *)

Section ForwardingOutcomes.

Variable session_response : list ActionCall -> ActionCall -> option exn.

Local Abbreviation session_action := (session_action session_response).
Local Abbreviation forward := (forward session_response).

(** Every forwarder either stops at the range check of the calendar, or
    comes down to one guarded call made after some debug records. *)
Lemma forward_shape (mower_id : string) (c : Command) (w : World) :
  (exists debug,
      forward mower_id c w
      = (inr (ConditionErrorMessage "<" "StartingTime must be before EndingTime"),
         {| session_data := session_data w; session_calls := session_calls w;
            log_records := (log_records w ++ debug)%list |})
      /\ Forall (fun record => fst record = LOG_DEBUG) debug)
  \/ (exists payload command_type w0 debug,
         session_data w0 = session_data w
         /\ session_calls w0 = session_calls w
         /\ log_records w0 = (log_records w ++ debug)%list
         /\ Forall (fun record => fst record = LOG_DEBUG) debug
         /\ forward mower_id c w
            = try_except_ClientResponseError
                (session_action mower_id payload command_type)
                (_LOGGER_error COULD_NOT_SEND) w0).
Proof.
  destruct c; cbn [forward].
  all: try (right; do 2 eexists; exists w, []; rewrite app_nil_r;
            split; [reflexivity |]; split; [reflexivity |];
            split; [reflexivity |]; split; [constructor | reflexivity]).
  pose proof (calendar_logs_then_checks session_response mower_id start end_
                monday tuesday wednesday thursday friday saturday sunday w) as E.
  cbv zeta in E.
  destruct (hour end_ * 60 + minute end_ - (hour start * 60 + minute start) <=? 0).
  - left. eexists [_; _]. split.
    + rewrite E. unfold logged. cbn [session_data session_calls log_records].
      rewrite <- app_assoc. reflexivity.
    + repeat constructor.
  - right. eexists _, _, _, [_; _].
    split; [| split; [| split; [| split]]].
    5: exact E.
    + reflexivity.
    + reflexivity.
    + unfold logged. cbn [log_records]. rewrite <- app_assoc. reflexivity.
    + repeat constructor.
Qed.

(** What a run of a forwarder comes to, by the session's answer. *)
Lemma forward_cases (mower_id : string) (c : Command) (w : World) :
  let run := forward mower_id c w in
  (exists debug,
      fst run = inr (ConditionErrorMessage "<" "StartingTime must be before EndingTime")
      /\ session_data (snd run) = session_data w
      /\ session_calls (snd run) = session_calls w
      /\ log_records (snd run) = (log_records w ++ debug)%list
      /\ Forall (fun record => fst record = LOG_DEBUG) debug)
  \/ (exists call debug,
         Forall (fun record => fst record = LOG_DEBUG) debug
         /\ session_data (snd run) = session_data w
         /\ session_calls (snd run) = (session_calls w ++ [call])%list
         /\ match session_response (session_calls w) call with
            | None =>
                fst run = inl tt
                /\ log_records (snd run) = (log_records w ++ debug)%list
            | Some ClientResponseError =>
                fst run = inl tt
                /\ log_records (snd run)
                   = (log_records w ++ debug ++ [(LOG_ERROR, COULD_NOT_SEND)])%list
            | Some e =>
                fst run = inr e
                /\ log_records (snd run) = (log_records w ++ debug)%list
            end).
Proof.
  intros run. subst run.
  destruct (forward_shape mower_id c w)
    as [(debug & E & F) | (payload & ct & w0 & debug & Hd & Hc & Hl & F & E)].
  - left. exists debug. rewrite E. repeat split; assumption.
  - right.
    exists {| call_mower_id := mower_id; call_payload := payload;
              call_command_type := ct |}, debug.
    rewrite E, guarded_call_run. cbv zeta. rewrite Hc.
    destruct (session_response _ _) as [[| |] |];
      cbn [fst snd logged received session_data session_calls log_records];
      rewrite ?Hd, ?Hc, ?Hl, <- ?app_assoc; repeat split; assumption.
Qed.

(** X11. When the session accepts the forwarded call, every forwarder
    returns normally and logs no error record: the log only grows by the
    debug records of the calendar command, and the snapshots are untouched. *)
Theorem forward_accepted (mower_id : string) (c : Command) (w : World)
    (call : ActionCall) :
  session_calls (snd (forward mower_id c w)) = (session_calls w ++ [call])%list ->
  session_response (session_calls w) call = None ->
  fst (forward mower_id c w) = inl tt
  /\ session_data (snd (forward mower_id c w)) = session_data w
  /\ exists debug,
       log_records (snd (forward mower_id c w)) = (log_records w ++ debug)%list
       /\ Forall (fun record => fst record = LOG_DEBUG) debug.
Proof.
  intros Hcalls Hok.
  destruct (forward_cases mower_id c w)
    as [(debug & _ & _ & Hc & _) | (call' & debug & F & Hd & Hc & Hrun)].
  - exfalso. rewrite Hc in Hcalls.
    apply (f_equal (@length ActionCall)) in Hcalls.
    rewrite length_app in Hcalls. simpl in Hcalls. lia.
  - rewrite Hc in Hcalls. apply app_inv_head in Hcalls.
    injection Hcalls as ->. rewrite Hok in Hrun. destruct Hrun as [Hr Hl].
    split; [exact Hr |]. split; [exact Hd |]. exists debug. split; assumption.
Qed.

(** X12. Only the request error is caught: when the forwarded call raises
    any other exception, the forwarder raises it to its caller and logs no
    error record. *)
Theorem forward_raises_other_exceptions (mower_id : string) (c : Command)
    (w : World) (call : ActionCall) (e : exn) :
  session_calls (snd (forward mower_id c w)) = (session_calls w ++ [call])%list ->
  session_response (session_calls w) call = Some e ->
  e <> ClientResponseError ->
  fst (forward mower_id c w) = inr e
  /\ exists debug,
       log_records (snd (forward mower_id c w)) = (log_records w ++ debug)%list
       /\ Forall (fun record => fst record = LOG_DEBUG) debug.
Proof.
  intros Hcalls Hexn Hne.
  destruct (forward_cases mower_id c w)
    as [(debug & _ & _ & Hc & _) | (call' & debug & F & Hd & Hc & Hrun)].
  - exfalso. rewrite Hc in Hcalls.
    apply (f_equal (@length ActionCall)) in Hcalls.
    rewrite length_app in Hcalls. simpl in Hcalls. lia.
  - rewrite Hc in Hcalls. apply app_inv_head in Hcalls.
    injection Hcalls as ->. rewrite Hexn in Hrun.
    destruct e as [| type message | name]; [contradiction | |];
      destruct Hrun as [Hr Hl]; (split; [exact Hr |]);
      exists debug; split; assumption.
Qed.

(** X13. A forwarder only appends: whatever the session answers, the
    snapshots are unchanged, the calls and log records made before the run
    are kept in place, at most one call is added and at most one error
    record is logged. *)
Theorem forward_only_appends (mower_id : string) (c : Command) (w : World) :
  let w' := snd (forward mower_id c w) in
  session_data w' = session_data w
  /\ exists new_calls new_records,
       session_calls w' = (session_calls w ++ new_calls)%list
       /\ log_records w' = (log_records w ++ new_records)%list
       /\ (length new_calls <= 1)%nat
       /\ (length (List.filter (fun record =>
                             match fst record with
                             | LOG_ERROR => true
                             | LOG_DEBUG => false
                             end) new_records) <= 1)%nat.
Proof.
  assert (forall debug : list (LogLevel * string),
             Forall (fun record => fst record = LOG_DEBUG) debug ->
             List.filter (fun record => match fst record with
                                   | LOG_ERROR => true
                                   | LOG_DEBUG => false
                                   end) debug = []) as Hnone.
  { intros debug F. induction F as [| [level message] rest Hx _ IH];
      [reflexivity |].
    simpl in Hx. subst level. simpl. exact IH. }
  cbv zeta.
  destruct (forward_cases mower_id c w)
    as [(debug & _ & Hd & Hc & Hl & F) | (call & debug & F & Hd & Hc & Hrun)].
  - split; [exact Hd |]. exists [], debug.
    rewrite app_nil_r, (Hnone debug F). repeat split; auto.
  - split; [exact Hd |].
    destruct (session_response (session_calls w) call) as [[| type message | name] |];
      destruct Hrun as [_ Hl].
    + exists [call], (debug ++ [(LOG_ERROR, COULD_NOT_SEND)])%list.
      rewrite List.filter_app, (Hnone debug F). repeat split; auto.
    + exists [call], debug. rewrite (Hnone debug F). repeat split; auto.
    + exists [call], debug. rewrite (Hnone debug F). repeat split; auto.
    + exists [call], debug. rewrite (Hnone debug F). repeat split; auto.
Qed.

(** X14. The four standard verbs each hand the session one call of type
    actions whose payload is the JSON text of a dictionary with the single
    entry data.type: ResumeSchedule for start, Pause for pause,
    ParkUntilNextSchedule for stop and ParkUntilFurtherNotice for
    return-to-base. *)
Theorem standard_verbs_payloads (mower_id : string) (w : World) :
  let request (verb : string) :=
    {| call_mower_id := mower_id;
       call_payload := json_dumps (JDict [("data", JDict [("type", JStr verb)])]);
       call_command_type := "actions" |} in
  session_calls (snd (forward mower_id Start w))
  = (session_calls w ++ [request "ResumeSchedule"])%list
  /\ session_calls (snd (forward mower_id Pause w))
     = (session_calls w ++ [request "Pause"])%list
  /\ session_calls (snd (forward mower_id Stop w))
     = (session_calls w ++ [request "ParkUntilNextSchedule"])%list
  /\ session_calls (snd (forward mower_id ReturnToBase w))
     = (session_calls w ++ [request "ParkUntilFurtherNotice"])%list.
Proof.
  cbv zeta. cbn [forward].
  unfold async_start, async_pause, async_stop, async_return_to_base.
  repeat split; rewrite guarded_call_calls; reflexivity.
Qed.

Lemma all_chars_app (p : ascii -> bool) (s1 s2 : string) :
  all_chars p (s1 ++ s2)%string = all_chars p s1 && all_chars p s2.
Proof.
  induction s1 as [| c s1 IH]; [reflexivity |].
  change (all_chars p (String c (s1 ++ s2)%string)
          = all_chars p (String c s1) && all_chars p s2).
  cbn [all_chars]. rewrite IH. now rewrite andb_assoc.
Qed.

Lemma json_escape_char_printable (c : ascii) :
  all_chars printable (json_escape_char c) = true.
Proof.
  destruct c as [[] [] [] [] [] [] [] []]; vm_compute; reflexivity.
Qed.

Lemma json_escape_printable (s : string) :
  all_chars printable (json_escape s) = true.
Proof.
  induction s as [| c s IH]; [reflexivity |].
  cbn [json_escape]. rewrite all_chars_app, json_escape_char_printable, IH.
  reflexivity.
Qed.

Lemma string_of_uint_printable (d : Decimal.uint) :
  all_chars printable (NilEmpty.string_of_uint d) = true.
Proof. induction d; cbn [NilEmpty.string_of_uint all_chars]; try rewrite IHd; reflexivity. Qed.

Lemma str_of_int_printable (n : Z) : all_chars printable (str_of_int n) = true.
Proof.
  unfold str_of_int. destruct (Z.to_int n) as [d | d];
    cbn [NilZero.string_of_int]; unfold NilZero.string_of_uint.
  - destruct d; try reflexivity; apply string_of_uint_printable.
  - cbn [all_chars].
    replace (printable "-") with true by reflexivity. cbn [andb].
    destruct d; try reflexivity; apply string_of_uint_printable.
Qed.

(** X15. The park-and-start service hands the session one call of type
    actions for every command string and every integer duration, negative
    ones included: nothing is checked. Its payload is the JSON text of the
    dictionary with data.type and data.attributes.duration, in which the
    command is escaped, so the payload consists of printable ASCII
    characters whatever the command holds. *)
Theorem park_and_start_payload (mower_id command : string) (duration : Z)
    (w : World) :
  let payload :=
    json_dumps
      (JDict [("data",
               JDict [("type", JStr command);
                      ("attributes", JDict [("duration", JInt duration)])])]) in
  session_calls (snd (forward mower_id (ParkAndStart command duration) w))
  = (session_calls w
     ++ [{| call_mower_id := mower_id; call_payload := payload;
            call_command_type := "actions" |}])%list
  /\ all_chars printable payload = true.
Proof.
  cbv zeta. split.
  - cbn [forward]. unfold async_park_and_start. cbv zeta.
    rewrite guarded_call_calls. reflexivity.
  - cbn [json_dumps json_string json_escape json_escape_char String.append
         all_chars].
    unfold json_string.
    repeat (rewrite ?all_chars_app; cbn [all_chars String.append]).
    rewrite ?(json_escape_printable command), ?str_of_int_printable. reflexivity.
Qed.

Lemma calendar_calls (mower_id : string) (start end_ : time)
    (mo tu we th fr sa su : bool) (w : World) :
  let s := hour start * 60 + minute start in
  let d := hour end_ * 60 + minute end_ - s in
  session_calls
    (snd (async_custom_calendar_command session_response mower_id start end_
            mo tu we th fr sa su w))
  = if d <=? 0 then session_calls w
    else (session_calls w
          ++ [{| call_mower_id := mower_id;
                 call_payload :=
                   json_dumps
                     (JDict [("data",
                              JDict [("type", JStr "calendar");
                                     ("attributes",
                                      JDict [("tasks",
                                              JList [calendar_task s d mo tu we
                                                       th fr sa su])])])]);
                 call_command_type := "calendar" |}])%list.
Proof.
  cbv zeta. rewrite calendar_logs_then_checks. cbv zeta.
  destruct (_ <=? 0); [reflexivity |].
  rewrite guarded_call_calls. reflexivity.
Qed.

(** X16. For times of day as the host hands them over (hour 0 to 23, minute
    0 to 59), the calendar command forwards no call exactly when the end is
    not later than the start, hour first and minute next. Equal times and a
    window that would run past midnight are both refused. *)
Theorem calendar_refuses_iff_end_not_later (mower_id : string)
    (start end_ : time)
    (monday tuesday wednesday thursday friday saturday sunday : bool)
    (w : World) :
  valid_time start -> valid_time end_ ->
  session_calls
    (snd (async_custom_calendar_command session_response mower_id start end_
            monday tuesday wednesday thursday friday saturday sunday w))
  = session_calls w
  <-> hour end_ < hour start
      \/ (hour end_ = hour start /\ minute end_ <= minute start).
Proof.
  intros [Hsh Hsm] [Heh Hem]. rewrite calendar_calls. cbv zeta.
  destruct (Z.leb_spec (hour end_ * 60 + minute end_
                        - (hour start * 60 + minute start)) 0) as [Hd | Hd].
  - split; [intros _; lia | reflexivity].
  - split; [| intros; lia].
    intros H. apply (f_equal (@length ActionCall)) in H.
    rewrite length_app in H. simpl in H. lia.
Qed.

(** X17. For times of day as the host hands them over, a forwarded calendar
    task stays within the day: its start is between 0 and 1438 minutes, its
    duration between 1 and 1439, and start plus duration is at most 1439. *)
Theorem calendar_task_within_day (mower_id : string) (start end_ : time)
    (monday tuesday wednesday thursday friday saturday sunday : bool)
    (w : World) :
  valid_time start -> valid_time end_ ->
  session_calls
    (snd (async_custom_calendar_command session_response mower_id start end_
            monday tuesday wednesday thursday friday saturday sunday w))
  <> session_calls w ->
  exists s d,
    session_calls
      (snd (async_custom_calendar_command session_response mower_id start end_
              monday tuesday wednesday thursday friday saturday sunday w))
    = (session_calls w
       ++ [{| call_mower_id := mower_id;
              call_payload :=
                json_dumps
                  (JDict [("data",
                           JDict [("type", JStr "calendar");
                                  ("attributes",
                                   JDict [("tasks",
                                           JList [calendar_task s d monday
                                                    tuesday wednesday thursday
                                                    friday saturday sunday])])])]);
              call_command_type := "calendar" |}])%list
    /\ 0 <= s <= 1438 /\ 1 <= d <= 1439 /\ s + d <= 1439.
Proof.
  intros [Hsh Hsm] [Heh Hem] Hsent. rewrite calendar_calls in Hsent |- *.
  cbv zeta in *.
  destruct (Z.leb_spec (hour end_ * 60 + minute end_
                        - (hour start * 60 + minute start)) 0) as [Hd | Hd];
    [contradiction |].
  eexists _, _. split; [reflexivity |]. lia.
Qed.

(** X18. A swallowed failure does not stop what follows: with a session that
    fails every request, two custom commands run one after the other both
    return normally, both calls reach the session in order, and two error
    records are logged. *)
Theorem failed_command_does_not_stop_next
    (mower_id type1 payload1 type2 payload2 : string) (w : World) :
  (forall calls call, session_response calls call = Some ClientResponseError) ->
  let first := async_custom_command session_response mower_id type1 payload1 w in
  let second :=
    async_custom_command session_response mower_id type2 payload2 (snd first) in
  fst first = inl tt
  /\ fst second = inl tt
  /\ session_calls (snd second)
     = (session_calls w
        ++ [{| call_mower_id := mower_id; call_payload := payload1;
               call_command_type := type1 |};
            {| call_mower_id := mower_id; call_payload := payload2;
               call_command_type := type2 |}])%list
  /\ log_records (snd second)
     = (log_records w
        ++ [(LOG_ERROR, COULD_NOT_SEND); (LOG_ERROR, COULD_NOT_SEND)])%list.
Proof.
  intros Hfail. cbv zeta. unfold async_custom_command.
  rewrite !guarded_call_run. cbv zeta. rewrite Hfail.
  cbn [fst snd]. rewrite Hfail. cbn [fst snd logged received session_calls
                                     log_records].
  rewrite <- !app_assoc. repeat split; reflexivity.
Qed.

End ForwardingOutcomes.

Lemma forward_accepted_witness :
  fst (forward accepting_session "mower-1" Pause empty_world) = inl tt.
Proof.
  apply (forward_accepted accepting_session "mower-1" Pause empty_world
           {| call_mower_id := "mower-1";
              call_payload := "{" ++ dq "data" ++ ": {" ++ dq "type" ++ ": "
                              ++ dq "Pause" ++ "}}";
              call_command_type := "actions" |});
    reflexivity.
Defined.

Lemma forward_raises_other_exceptions_witness :
  fst (forward (fun _ _ => Some (OtherException "TimeoutError")) "mower-1" Stop
         empty_world)
  = inr (OtherException "TimeoutError").
Proof.
  apply (forward_raises_other_exceptions
           (fun _ _ => Some (OtherException "TimeoutError")) "mower-1" Stop
           empty_world
           {| call_mower_id := "mower-1";
              call_payload := "{" ++ dq "data" ++ ": {" ++ dq "type" ++ ": "
                              ++ dq "ParkUntilNextSchedule" ++ "}}";
              call_command_type := "actions" |}
           (OtherException "TimeoutError"));
    [reflexivity | reflexivity | discriminate].
Defined.

Lemma calendar_refuses_iff_end_not_later_witness :
  session_calls
    (snd (async_custom_calendar_command accepting_session "mower-1"
            {| hour := 22; minute := 0 |} {| hour := 6; minute := 0 |}
            true true true true true true true empty_world))
  = [].
Proof.
  apply (calendar_refuses_iff_end_not_later accepting_session "mower-1"
           {| hour := 22; minute := 0 |} {| hour := 6; minute := 0 |}
           true true true true true true true empty_world).
  - unfold valid_time. simpl. lia.
  - unfold valid_time. simpl. lia.
  - simpl. lia.
Defined.

Lemma calendar_task_within_day_witness :
  exists s d,
    session_calls
      (snd (async_custom_calendar_command accepting_session "mower-1"
              {| hour := 8; minute := 0 |} {| hour := 8; minute := 30 |}
              true false false false false false false empty_world))
    = [{| call_mower_id := "mower-1";
          call_payload :=
            json_dumps
              (JDict [("data",
                       JDict [("type", JStr "calendar");
                              ("attributes",
                               JDict [("tasks",
                                       JList [calendar_task s d true false false
                                                false false false false])])])]);
          call_command_type := "calendar" |}]
    /\ 0 <= s <= 1438 /\ 1 <= d <= 1439 /\ s + d <= 1439.
Proof.
  apply (calendar_task_within_day accepting_session "mower-1"
           {| hour := 8; minute := 0 |} {| hour := 8; minute := 30 |}
           true false false false false false false empty_world).
  - unfold valid_time. simpl. lia.
  - unfold valid_time. simpl. lia.
  - vm_compute. discriminate.
Defined.

Lemma failed_command_does_not_stop_next_witness :
  fst (async_custom_command failing_session "mower-1" "actions" "second"
         (snd (async_custom_command failing_session "mower-1" "actions" "first"
                 empty_world)))
  = inl tt.
Proof.
  pose proof (failed_command_does_not_stop_next failing_session "mower-1"
                "actions" "first" "actions" "second" empty_world) as H.
  cbv zeta in H. destruct H as (_ & H & _); [reflexivity | exact H].
Defined.

(** ** Features and platform setup *)

Section FeatureBits.

Variables SUPPORT_STATE SUPPORT_BATTERY SUPPORT_MAP SUPPORT_PAUSE
  SUPPORT_RETURN_HOME SUPPORT_SEND_COMMAND SUPPORT_START SUPPORT_STATUS
  SUPPORT_STOP : Z.

Local Abbreviation supported_features :=
  (supported_features SUPPORT_STATE SUPPORT_BATTERY SUPPORT_MAP SUPPORT_PAUSE
     SUPPORT_RETURN_HOME SUPPORT_SEND_COMMAND SUPPORT_START SUPPORT_STATUS
     SUPPORT_STOP).
Local Abbreviation LISTED_FEATURES :=
  (LISTED_FEATURES SUPPORT_STATE SUPPORT_BATTERY SUPPORT_MAP SUPPORT_PAUSE
     SUPPORT_RETURN_HOME SUPPORT_SEND_COMMAND SUPPORT_START SUPPORT_STATUS
     SUPPORT_STOP).

Lemma features_testbit (n : Z) :
  Z.testbit supported_features n
  = existsb (fun flag => Z.testbit flag n) LISTED_FEATURES.
Proof.
  unfold supported_features, SUPPORT_STATE_SERVICES, LISTED_FEATURES.
  rewrite !Z.lor_spec. cbn [existsb].
  repeat match goal with
    | |- context [Z.testbit ?x n] => destruct (Z.testbit x n)
    end; reflexivity.
Qed.

(** X19. Whatever the values of the host's flags, the supported features
    hold every bit of each of the nine listed flags and no other bit;
    writing SUPPORT_STATE twice in the source changes nothing. *)
Theorem supported_features_are_the_listed_flags :
  (forall flag, In flag LISTED_FEATURES -> Z.land supported_features flag = flag)
  /\ (forall n, Z.testbit supported_features n = true ->
                exists flag, In flag LISTED_FEATURES /\ Z.testbit flag n = true)
  /\ supported_features = fold_right Z.lor 0 LISTED_FEATURES.
Proof.
  split; [| split].
  - intros flag Hin. apply Z.bits_inj'. intros n _.
    rewrite Z.land_spec, features_testbit.
    destruct (Z.testbit flag n) eqn:E; [| apply andb_false_r].
    rewrite andb_true_r. apply existsb_exists. exists flag. split; assumption.
  - intros n H. rewrite features_testbit in H.
    apply existsb_exists in H. exact H.
  - apply Z.bits_inj'. intros n _. rewrite features_testbit.
    unfold LISTED_FEATURES. cbn [fold_right existsb].
    rewrite !Z.lor_spec, Z.bits_0. reflexivity.
Qed.

End FeatureBits.

Lemma enumerate_from_indices {A} (start : nat) (xs : list A) :
  map (fun '(idx, ent) => idx) (enumerate_from start xs)
  = List.seq start (length xs).
Proof.
  revert start. induction xs as [| x xs IH]; intros start; [reflexivity |].
  cbn [enumerate_from map length List.seq]. now rewrite IH.
Qed.

(** X20. Platform setup adds one entity per record of the session's data:
    the indices of the entities are 0, 1, ... in order, none twice, and an
    index belongs to an entity exactly when the data has a record there. *)
Theorem setup_one_entity_per_record {A} (data : list A) :
  setup_entity_indices data = List.seq 0 (length data)
  /\ length (setup_entity_indices data) = length data
  /\ List.NoDup (setup_entity_indices data)
  /\ forall idx, In idx (setup_entity_indices data)
                 <-> exists ent, nth_error data idx = Some ent.
Proof.
  assert (setup_entity_indices data = List.seq 0 (length data)) as E.
  { apply enumerate_from_indices. }
  rewrite E. split; [reflexivity |]. split; [apply length_seq |].
  split; [apply List.seq_NoDup |].
  intros idx. rewrite in_seq. split.
  - intros [_ Hlt]. destruct (nth_error data idx) as [ent |] eqn:En.
    + now exists ent.
    + apply nth_error_None in En. simpl in Hlt. lia.
  - intros [ent Hent]. split; [lia |].
    simpl. apply nth_error_Some. congruence.
Qed.

(** ** The state and the status side by side *)

Section StateAndStatus.

Variable ERRORCODES : gmap Z string.
Variable utcfromtimestamp : Q -> datetime.
Variable as_local : datetime -> datetime.

Local Abbreviation get_status := (__get_status ERRORCODES utcfromtimestamp as_local).

(** X21. When the derived state is Paused the status is Paused, and when it
    is Idle the status is Updating or Powering up. *)
Theorem status_of_paused_and_idle (a : MowerAttributes) :
  (state a = Some STATE_PAUSED -> get_status a = Some "Paused")
  /\ (state a = Some STATE_IDLE ->
      get_status a = Some "Updating" \/ get_status a = Some "Powering up").
Proof.
  unfold __get_status, status_from_wait_updating, status_from_off, state.
  destruct a as [[mode act st code ts] b [next ov reason]].
  cbn [mower mower_state mower_activity py_in existsb].
  split; string_cases; intros H; try discriminate H; auto.
Qed.

(** X22. In the states UNKNOWN, NOT_APPLICABLE, OFF and STOPPED the status is
    the fixed text of the state whatever the activity, while the derived
    state follows the activity first: MOWING or LEAVING gives Cleaning,
    GOING_HOME gives Returning, PARKED_IN_CS or CHARGING gives Docked. The
    two readings then differ. *)
Theorem status_by_state_while_state_by_activity (a : MowerAttributes) :
  let st := mower_state (mower a) in
  let act := mower_activity (mower a) in
  In st ["UNKNOWN"; "NOT_APPLICABLE"; "OFF"; "STOPPED"] ->
  In (get_status a)
     [Some "Unknown"; Some "Not applicable"; Some "Off"; Some "Stopped"]
  /\ (st = "UNKNOWN" -> get_status a = Some "Unknown")
  /\ (st = "NOT_APPLICABLE" -> get_status a = Some "Not applicable")
  /\ (st = "OFF" -> get_status a = Some "Off")
  /\ (st = "STOPPED" -> get_status a = Some "Stopped")
  /\ (In act ["MOWING"; "LEAVING"] -> state a = Some STATE_CLEANING)
  /\ (act = "GOING_HOME" -> state a = Some STATE_RETURNING)
  /\ (In act ["PARKED_IN_CS"; "CHARGING"] -> state a = Some STATE_DOCKED).
Proof.
  destruct a as [[mode act st code ts] b [next ov reason]].
  cbv zeta. cbn [mower mower_state mower_activity].
  intros Hst. simpl in Hst.
  destruct Hst as [<- | [<- | [<- | [<- | []]]]];
    (split; [simpl; tauto |]);
    (split; [intros H; try discriminate H; reflexivity |]);
    (split; [intros H; try discriminate H; reflexivity |]);
    (split; [intros H; try discriminate H; reflexivity |]);
    (split; [intros H; try discriminate H; reflexivity |]);
    (split; [intros [<- | [<- | []]]; reflexivity |]);
    (split; [intros ->; reflexivity | intros [<- | [<- | []]]; reflexivity]).
Qed.

End StateAndStatus.

Lemma status_by_state_while_state_by_activity_witness :
  __get_status sample_ERRORCODES utcfromtimestamp_exact as_local_utc
    (sample_attributes "OFF" "MOWING" 0 0) = Some "Off"
  /\ state (sample_attributes "OFF" "MOWING" 0 0) = Some STATE_CLEANING.
Proof.
  pose proof (status_by_state_while_state_by_activity sample_ERRORCODES
                utcfromtimestamp_exact as_local_utc
                (sample_attributes "OFF" "MOWING" 0 0)) as H.
  cbv zeta in H. destruct H as (_ & _ & _ & Hoff & _ & Hclean & _).
  - simpl. tauto.
  - split; [apply Hoff; reflexivity | apply Hclean; simpl; tauto].
Defined.

Lemma status_of_paused_and_idle_witness :
  __get_status sample_ERRORCODES utcfromtimestamp_exact as_local_utc
    (sample_attributes "PAUSED" "MOWING" 0 0) = Some "Paused".
Proof.
  apply (status_of_paused_and_idle sample_ERRORCODES utcfromtimestamp_exact
           as_local_utc (sample_attributes "PAUSED" "MOWING" 0 0)).
  reflexivity.
Defined.
